(** * Crypto-Upgrade-Monitor: forecasting and decision services

    A shallow embedding of the three numerical services of the repository,

    - [VolatilityModelingService]  (GARCH(1,1)-like volatility forecast),
    - [LiquidityPredictionService] (TVL forecast and flow classification),
    - [ExecutionGuidanceService]   (rule-based decision engine),

    together with the properties stated about them, and the selection of
    networks in the application shell ([App]).

    ** Numbers

    Every numeric value of the program is a JavaScript [number], an IEEE-754
    binary64 value.  The services are embedded once, over the interface
    [Number] of the arithmetic they use, and are read at two instances:

    - [Binary64]: Rocq's primitive floats.  This is what the program
      computes; every run on a concrete input is evaluated here.
    - [Exact]: the reals extended with [+oo], [-oo] and [NaN], with exact
      (unrounded) arithmetic and the IEEE rules for the special values.
      Statements that quantify over all inputs and whose content is a
      real-arithmetic identity or bound are proved here; rounding error is
      deliberately outside the scope of this development.

    ** Effects

    [Math.random()] is an explicit oracle [rand : nat -> N] giving the
    successive draws of one call, and [Date.now()] an oracle
    [clock : nat -> N] giving its successive readings; the hour and the
    day that [new Date()] reports are explicit arguments.  An [async]
    method returns an [outcome]: the value its promise resolves to, or the
    name of the error it rejects with. *)

From Stdlib Require Import ZArith QArith List Bool String Reals Lra Lia.
From Stdlib Require Import Floats Uint63.
From Stdlib Require Import Sorted.
Import ListNotations.

(* ================================================================= *)
(** * The arithmetic of JavaScript numbers *)

Declare Scope num_scope.
Delimit Scope num_scope with num.

Class Number (N : Type) : Type := {
  of_Z : Z -> N;
  num_add : N -> N -> N;
  num_sub : N -> N -> N;
  num_mul : N -> N -> N;
  num_div : N -> N -> N;
  num_opp : N -> N;
  num_ltb : N -> N -> bool;
  num_leb : N -> N -> bool;
  num_eqb : N -> N -> bool;
  Math_abs : N -> N;
  Math_sqrt : N -> N;
  Math_log : N -> N;
  Math_max : N -> N -> N;
  Math_min : N -> N -> N;
  (** [Math.pow(x, n)] and [x ** n] for a positive integer literal [n]. *)
  Math_pow : N -> positive -> N
}.

Notation "x + y" := (num_add x y) : num_scope.
Notation "x - y" := (num_sub x y) : num_scope.
Notation "x * y" := (num_mul x y) : num_scope.
Notation "x / y" := (num_div x y) : num_scope.
Notation "- x" := (num_opp x) : num_scope.
Notation "x <? y" := (num_ltb x y) (at level 70, no associativity) : num_scope.
Notation "x >? y" := (num_ltb y x) (at level 70, no associativity) : num_scope.
Notation "x <=? y" := (num_leb x y) (at level 70, no associativity) : num_scope.
Notation "x >=? y" := (num_leb y x) (at level 70, no associativity) : num_scope.
Notation "x =? y" := (num_eqb x y) (at level 70, no associativity) : num_scope.
Notation "x ** n" := (Math_pow x n) (at level 30, right associativity) : num_scope.

(** The outcome of an [async] method. *)
Inductive outcome (A : Type) : Type :=
| Resolved (v : A)
| Rejected (error : string).
Arguments Resolved {A} v.
Arguments Rejected {A} error.

(** [try { body } catch (error) { handler }]. *)
Definition try_catch {A : Type} (body : outcome A) (handler : string -> outcome A)
  : outcome A :=
  match body with
  | Resolved v => Resolved v
  | Rejected e => handler e
  end.

(** [for (let i = lo; i < hi; i++) body], threading the variables the body
    assigns as a state [s]. *)
Fixpoint for_steps {S : Type} (n : nat) (i : Z) (body : Z -> S -> S) (s : S) : S :=
  match n with
  | O => s
  | Datatypes.S n' => for_steps n' (i + 1) body (body i s)
  end.

Definition for_loop {S : Type} (lo hi : Z) (body : Z -> S -> S) (s : S) : S :=
  for_steps (Z.to_nat (hi - lo)) lo body s.

(** [array.reduce((acc, x, i) => f acc x i, init)]. *)
Fixpoint reduce_from {A B : Type} (i : Z) (f : B -> A -> Z -> B) (l : list A) (acc : B) : B :=
  match l with
  | [] => acc
  | x :: l' => reduce_from (i + 1) f l' (f acc x i)
  end.

Definition reduce {A B : Type} (f : B -> A -> Z -> B) (l : list A) (init : B) : B :=
  reduce_from 0 f l init.

Definition len {A : Type} (l : list A) : Z := Z.of_nat (List.length l).

Section Numbers.
Context {N : Type} {num : Number N}.
Local Open Scope num_scope.

Definition NaN : N := of_Z 0 / of_Z 0.

(** A decimal literal of the source: the number nearest to the rational
    it denotes. *)
Definition lit (q : Q) : N := of_Z (Qnum q) / of_Z (Zpos (Qden q)).

Definition isNaN (x : N) : bool := negb (x =? x).

(** Truthiness of a number, as [||] and [if] test it. *)
Definition truthy (x : N) : bool := negb (x =? of_Z 0) && negb (isNaN x).

(** [l[i]]; reading outside the array gives [undefined], which every
    arithmetic operation of the services turns into [NaN]. *)
Definition get (l : list N) (i : Z) : N :=
  if (i <? 0)%Z then NaN else nth (Z.to_nat i) l NaN.

End Numbers.

Arguments lit {N num} q%_Q.
Notation "l .[ i ]" := (get l i) (at level 1, left associativity, format "l .[ i ]") : num_scope.

(** ** Object literals used as tables

    [{ k1: v1, ... }[key] || fallback] with a string [key].  A key the
    literal does not define is looked up in [Object.prototype]: the names
    below give a function or an object there, which is truthy, so the
    fallback is not taken, and which the multiplication that follows turns
    into [NaN]; any other key gives [undefined] and the fallback. *)
Definition Object_prototype : list string :=
  ["constructor"; "hasOwnProperty"; "isPrototypeOf"; "propertyIsEnumerable";
   "toLocaleString"; "toString"; "valueOf"; "__proto__";
   "__defineGetter__"; "__defineSetter__"; "__lookupGetter__"; "__lookupSetter__"]%string.

Section Objects.
Context {N : Type} {num : Number N}.

Definition lookup_or (table : list (string * N)) (key : string) (fallback : N) : N :=
  match find (fun entry => String.eqb (fst entry) key) table with
  | Some (_, v) => if truthy v then v else fallback
  | None => if existsb (String.eqb key) Object_prototype then NaN else fallback
  end.

End Objects.


(* ================================================================= *)
(** * Data model (types/index.ts) *)

Module GarchParams.
Record t (N : Type) : Type := mk { alpha : N; beta : N; omega : N }.
Arguments mk {N}.
Arguments alpha {N}.
Arguments beta {N}.
Arguments omega {N}.
End GarchParams.

Module VolatilityPrediction.
Record t (N : Type) : Type := mk {
  current : N;
  predicted1h : N;
  predicted24h : N;
  predicted7d : N;
  confidence : N;
  garchParams : GarchParams.t N
}.
Arguments mk {N}.
Arguments current {N}.
Arguments predicted1h {N}.
Arguments predicted24h {N}.
Arguments predicted7d {N}.
Arguments confidence {N}.
Arguments garchParams {N}.
End VolatilityPrediction.

(** ['governance' | 'implementation' | 'parameter'], the declared type of
    an upgrade event's [type]. *)
Inductive UpgradeType : Type := governance | implementation | parameter.

(** The fields of an upgrade event that the services read. *)
Module UpgradeEvent.
Record t (N : Type) : Type := mk { type : UpgradeType; riskScore : N }.
Arguments mk {N}.
Arguments type {N}.
Arguments riskScore {N}.
End UpgradeEvent.

Module TVLPoint.
Record t (N : Type) : Type := mk { timestamp : N; tvl : N }.
Arguments mk {N}.
Arguments timestamp {N}.
Arguments tvl {N}.
End TVLPoint.

Inductive FlowDirection : Type := inflow | outflow | stable.

Module LiquidityPrediction.
Record t (N : Type) : Type := mk {
  currentTVL : N;
  predictedTVL1h : N;
  predictedTVL24h : N;
  predictedTVL7d : N;
  flowDirection : FlowDirection;
  confidence : N
}.
Arguments mk {N}.
Arguments currentTVL {N}.
Arguments predictedTVL1h {N}.
Arguments predictedTVL24h {N}.
Arguments predictedTVL7d {N}.
Arguments flowDirection {N}.
Arguments confidence {N}.
End LiquidityPrediction.

Module RiskAssessment.
Record t (N : Type) : Type := mk {
  overall : N;
  technical : N;
  governance : N;
  market : N;
  liquidity : N;
  timestamp : N
}.
Arguments mk {N}.
Arguments overall {N}.
Arguments technical {N}.
Arguments governance {N}.
Arguments market {N}.
Arguments liquidity {N}.
Arguments timestamp {N}.
End RiskAssessment.

(** The field of the market snapshot that the decision engine reads. *)
Module MarketData.
Record t (N : Type) : Type := mk { change24h : N }.
Arguments mk {N}.
Arguments change24h {N}.
End MarketData.

Module UserProfile.
Record t (N : Type) : Type := mk { riskTolerance : N }.
Arguments mk {N}.
Arguments riskTolerance {N}.
End UserProfile.

Inductive Action : Type := buy | sell | hold | hedge.

Module Rebalancing.
Record t (N : Type) : Type := mk {
  asset : string;
  currentWeight : N;
  recommendedWeight : N
}.
Arguments mk {N}.
Arguments asset {N}.
Arguments currentWeight {N}.
Arguments recommendedWeight {N}.
End Rebalancing.

Module Timing.
Record t (N : Type) : Type := mk { entry : N; exit : N }.
Arguments mk {N}.
Arguments entry {N}.
Arguments exit {N}.
End Timing.

Module ExecutionGuidance.
Record t (N : Type) : Type := mk {
  action : Action;
  confidence : N;
  optimalTiming : Timing.t N;
  riskMitigation : list string;
  portfolioRebalancing : list (Rebalancing.t N)
}.
Arguments mk {N}.
Arguments action {N}.
Arguments confidence {N}.
Arguments optimalTiming {N}.
Arguments riskMitigation {N}.
Arguments portfolioRebalancing {N}.
End ExecutionGuidance.

(** The fields of a past event that [predictEventVolatility] reads. *)
Module HistoricalEvent.
Record t (N : Type) : Type := mk { type : string; volatilityImpact : N }.
Arguments mk {N}.
Arguments type {N}.
Arguments volatilityImpact {N}.
End HistoricalEvent.

Module Flow.
Record t (N : Type) : Type := mk { from : string; to : string; amount : N; confidence : N }.
Arguments mk {N}.
Arguments from {N}.
Arguments to {N}.
Arguments amount {N}.
Arguments confidence {N}.
End Flow.

Module YieldImpact.
Record t (N : Type) : Type := mk { newYield : N; impact : N; confidence : N }.
Arguments mk {N}.
Arguments newYield {N}.
Arguments impact {N}.
Arguments confidence {N}.
End YieldImpact.

Module Position.
Record t (N : Type) : Type := mk { asset : string; amount : N; value : N }.
Arguments mk {N}.
Arguments asset {N}.
Arguments amount {N}.
Arguments value {N}.
End Position.

Module PortfolioMetrics.
Record t (N : Type) : Type := mk {
  totalValue : N;
  riskAdjustedReturn : N;
  sharpeRatio : N;
  maxDrawdown : N;
  valueAtRisk : N;
  diversificationRatio : N
}.
Arguments mk {N}.
Arguments totalValue {N}.
Arguments riskAdjustedReturn {N}.
Arguments sharpeRatio {N}.
Arguments maxDrawdown {N}.
Arguments valueAtRisk {N}.
Arguments diversificationRatio {N}.
End PortfolioMetrics.


(* ================================================================= *)
(** * VolatilityModelingService *)

Module VolatilityModelingService.
Section Service.
Context {N : Type} {num : Number N}.
Local Open Scope num_scope.
Import GarchParams VolatilityPrediction.

Definition calculateReturns (prices : list N) : list N :=
  for_loop 1 (len prices)
    (fun i returns => returns ++ [Math_log (prices.[i] / prices.[i - 1])])
    [].

Definition calculateVariance (values : list N) : N :=
  let mean := fold_left (fun sum val => sum + val) values (of_Z 0) / of_Z (len values) in
  let variance :=
    fold_left (fun sum val => sum + (val - mean) ** 2) values (of_Z 0)
    / of_Z (len values - 1) in
  variance.

Definition calculateAutocorrelation (values : list N) (lag : Z) : N :=
  if (lag >=? len values)%Z then of_Z 0 else
  let n := (len values - lag)%Z in
  let mean := fold_left (fun sum val => sum + val) values (of_Z 0) / of_Z (len values) in
  let numerator :=
    for_loop 0 n
      (fun i numerator => numerator + (values.[i] - mean) * (values.[i + lag] - mean))
      (of_Z 0) in
  let denominator :=
    for_loop 0 (len values)
      (fun i denominator => denominator + (values.[i] - mean) ** 2)
      (of_Z 0) in
  numerator / denominator.

(** The variables the gradient loop assigns. *)
Record grad_state : Type := mk_grad {
  variance : N; gradAlpha : N; gradBeta : N; gradOmega : N
}.

Definition calculateGARCHGradient (returns : list N) (alpha beta omega : N)
  : GarchParams.t N :=
  let n := len returns in
  let s0 := mk_grad (omega / (of_Z 1 - alpha - beta)) (of_Z 0) (of_Z 0) (of_Z 0) in
  let s :=
    for_loop 1 n
      (fun i s =>
         let prevVariance := variance s in
         let variance := omega + alpha * returns.[i - 1] ** 2 + beta * variance s in
         let residual := returns.[i] ** 2 - variance in
         mk_grad variance
           (gradAlpha s + residual * returns.[i - 1] ** 2 / variance)
           (gradBeta s + residual * prevVariance / variance)
           (gradOmega s + residual / variance))
      s0 in
  GarchParams.mk (- gradAlpha s / of_Z n) (- gradBeta s / of_Z n) (- gradOmega s / of_Z n).

Definition optimizeGARCH (returns : list N) (alpha beta omega : N) : GarchParams.t N :=
  let learningRate := lit 0.001 in
  let gradient := calculateGARCHGradient returns alpha beta omega in
  GarchParams.mk
    (Math_max (lit 0.01) (Math_min (lit 0.99) (alpha - learningRate * GarchParams.alpha gradient)))
    (Math_max (lit 0.01) (Math_min (lit 0.99) (beta - learningRate * GarchParams.beta gradient)))
    (Math_max (lit 0.001) (omega - learningRate * GarchParams.omega gradient)).

Definition fitGARCH (returns : list N) : GarchParams.t N :=
  let variance := calculateVariance returns in
  let autocorr := calculateAutocorrelation (map (fun r => r * r) returns) 1 in
  let alpha := lit 0.1 in
  let beta := lit 0.85 in
  let omega := variance * (of_Z 1 - alpha - beta) in
  for_loop 0 100
    (fun iter p =>
       optimizeGARCH returns (GarchParams.alpha p) (GarchParams.beta p) (GarchParams.omega p))
    (GarchParams.mk alpha beta omega).

Record predictions : Type := mk_predictions { h1 : N; d1 : N; d7 : N; p_confidence : N }.

Definition eventMultiplier (upgradeEvent : option (UpgradeEvent.t N)) : N :=
  match upgradeEvent with
  | Some ev => of_Z 1 + (UpgradeEvent.riskScore ev / of_Z 100) * lit 0.5
  | None => of_Z 1
  end.

Definition generateVolatilityPredictions (current : N) (garchParams : GarchParams.t N)
    (upgradeEvent : option (UpgradeEvent.t N)) : predictions :=
  let alpha := GarchParams.alpha garchParams in
  let beta := GarchParams.beta garchParams in
  let omega := GarchParams.omega garchParams in
  let longRunVariance := omega / (of_Z 1 - alpha - beta) in
  let eventMultiplier := eventMultiplier upgradeEvent in
  let h1 := Math_sqrt (omega + alpha * current ** 2 + beta * current ** 2) * eventMultiplier in
  let d1 := Math_sqrt (omega + (alpha + beta) * current ** 2 +
                       (of_Z 1 - (alpha + beta) ** 24) / (of_Z 1 - (alpha + beta)) *
                       (longRunVariance - current ** 2)) * eventMultiplier in
  let d7 := Math_sqrt (longRunVariance + (alpha + beta) ** (7 * 24) *
                       (current ** 2 - longRunVariance)) * eventMultiplier in
  let confidence := Math_max (lit 0.5) (of_Z 1 - Math_abs (alpha + beta - lit 0.95)) in
  mk_predictions h1 d1 d7 confidence.

Definition calculateCurrentVolatility (returns : list N) : N :=
  let lambda := lit 0.94 in
  let variance :=
    for_loop (len returns - 20) (len returns)
      (fun i variance =>
         if (i >=? 0)%Z
         then lambda * variance + (of_Z 1 - lambda) * returns.[i] ** 2
         else variance)
      (calculateVariance returns) in
  Math_sqrt variance.

(** The body of the [try] block: none of its operations throws. *)
Definition predictVolatility_try (historicalPrices : list N)
    (upgradeEvent : option (UpgradeEvent.t N)) : outcome (VolatilityPrediction.t N) :=
  let returns := calculateReturns historicalPrices in
  let garchParams := fitGARCH returns in
  let currentVolatility := calculateCurrentVolatility returns in
  let predictions := generateVolatilityPredictions currentVolatility garchParams upgradeEvent in
  Resolved (VolatilityPrediction.mk currentVolatility (h1 predictions) (d1 predictions)
              (d7 predictions) (p_confidence predictions) garchParams).

(** The [catch] block: mock predictions from eight random draws. *)
Definition predictVolatility_catch (rand : nat -> N) : outcome (VolatilityPrediction.t N) :=
  Resolved (VolatilityPrediction.mk
              (rand 0%nat * lit 0.5 + lit 0.1)
              (rand 1%nat * lit 0.6 + lit 0.1)
              (rand 2%nat * lit 0.8 + lit 0.2)
              (rand 3%nat * lit 1.0 + lit 0.3)
              (rand 4%nat * lit 0.4 + lit 0.6)
              (GarchParams.mk
                 (rand 5%nat * lit 0.1 + lit 0.05)
                 (rand 6%nat * lit 0.3 + lit 0.7)
                 (rand 7%nat * lit 0.01 + lit 0.005))).

Definition predictVolatility (rand : nat -> N) (historicalPrices : list N)
    (upgradeEvent : option (UpgradeEvent.t N)) : outcome (VolatilityPrediction.t N) :=
  try_catch (predictVolatility_try historicalPrices upgradeEvent)
            (fun _ => predictVolatility_catch rand).

Definition predictEventVolatility (baseVolatility : N) (eventType : string) (riskScore : N)
    (historicalEvents : list (HistoricalEvent.t N)) : outcome N :=
  let eventTypeMultiplier :=
    lookup_or [("governance"%string, lit 1.2);
               ("implementation"%string, lit 1.5);
               ("parameter"%string, lit 0.8)] eventType (lit 1.0) in
  let riskMultiplier := of_Z 1 + (riskScore / of_Z 100) * lit 0.5 in
  let similarEvents :=
    filter (fun e => String.eqb (HistoricalEvent.type e) eventType) historicalEvents in
  let avgHistoricalImpact :=
    if (len similarEvents >? 0)%Z
    then fold_left (fun sum e => sum + HistoricalEvent.volatilityImpact e)
                   similarEvents (of_Z 0)
         / of_Z (len similarEvents)
    else lit 1.0 in
  Resolved (baseVolatility * eventTypeMultiplier * riskMultiplier * avgHistoricalImpact).

End Service.
End VolatilityModelingService.

(* ================================================================= *)
(** * LiquidityPredictionService *)

Module LiquidityPredictionService.
Section Service.
Context {N : Type} {num : Number N}.
Local Open Scope num_scope.

(** [data[i]] for an array of points. *)
Definition point_at (data : list (TVLPoint.t N)) (i : Z) : option (TVLPoint.t N) :=
  if (i <? 0)%Z then None else nth_error data (Z.to_nat i).

(** [data[i].tvl]; the loops below only read inside the array. *)
Definition tvl_at (data : list (TVLPoint.t N)) (i : Z) : N :=
  match point_at data i with
  | Some p => TVLPoint.tvl p
  | None => NaN
  end.

Definition calculateTrend (data : list (TVLPoint.t N)) : N :=
  if (len data <? 2)%Z then of_Z 0 else
  let n := of_Z (len data) in
  let sumX := reduce (fun sum _ i => sum + of_Z i) data (of_Z 0) in
  let sumY := reduce (fun sum d _ => sum + TVLPoint.tvl d) data (of_Z 0) in
  let sumXY := reduce (fun sum d i => sum + of_Z i * TVLPoint.tvl d) data (of_Z 0) in
  let sumXX := reduce (fun sum _ i => sum + of_Z i * of_Z i) data (of_Z 0) in
  let slope := (n * sumXY - sumX * sumY) / (n * sumXX - sumX * sumX) in
  slope.

(** [hourOfDay] and [dayOfWeek] are what [new Date()] gives when the
    method runs. *)
Definition calculateSeasonality (hourOfDay dayOfWeek : Z) (data : list (TVLPoint.t N)) : N :=
  let hourlyMultiplier :=
    if ((hourOfDay >=? 8) && (hourOfDay <=? 20))%Z then lit 1.1 else lit 0.9 in
  let dailyMultiplier :=
    if ((dayOfWeek >=? 1) && (dayOfWeek <=? 5))%Z then lit 1.05 else lit 0.95 in
  hourlyMultiplier * dailyMultiplier.

Definition calculateTVLVolatility (data : list (TVLPoint.t N)) : N :=
  if (len data <? 2)%Z then lit 0.01 else
  let returns :=
    for_loop 1 (len data)
      (fun i returns =>
         returns ++ [(tvl_at data i - tvl_at data (i - 1)) / tvl_at data (i - 1)])
      [] in
  let mean := fold_left (fun sum r => sum + r) returns (of_Z 0) / of_Z (len returns) in
  let variance :=
    fold_left (fun sum r => sum + (r - mean) ** 2) returns (of_Z 0)
    / of_Z (len returns - 1) in
  Math_sqrt variance.

(** The table has an entry for each declared type, so the [|| 1.0] of
    [calculateEventImpact] only replaces an entry that is falsy. *)
Definition typeMultipliers (type : UpgradeType) : N :=
  match type with
  | governance => lit 0.95
  | implementation => lit 0.85
  | parameter => lit 1.05
  end.

Definition calculateEventImpact (upgradeEvent : UpgradeEvent.t N) : N :=
  let baseMultiplier :=
    let m := typeMultipliers (UpgradeEvent.type upgradeEvent) in
    if truthy m then m else lit 1.0 in
  let riskAdjustment := of_Z 1 - (UpgradeEvent.riskScore upgradeEvent / of_Z 100) * lit 0.2 in
  baseMultiplier * riskAdjustment.

Record predictions : Type := mk_predictions { h1 : N; d1 : N; d7 : N; p_confidence : N }.

Definition generateTVLPredictions (rand : nat -> N)
    (currentTVL trend seasonality volatility eventImpact : N) : predictions :=
  let randomComponent (k : nat) := (rand k - lit 0.5) * volatility in
  let h1 := currentTVL * (of_Z 1 + trend * (of_Z 1 / of_Z 24 / of_Z 365) + randomComponent 0%nat)
            * seasonality * eventImpact in
  let d1 := currentTVL * (of_Z 1 + trend * (of_Z 1 / of_Z 365)
                          + randomComponent 1%nat * Math_sqrt (of_Z 24))
            * seasonality * eventImpact in
  let d7 := currentTVL * (of_Z 1 + trend * (of_Z 7 / of_Z 365)
                          + randomComponent 2%nat * Math_sqrt (of_Z 7 * of_Z 24))
            * seasonality * eventImpact in
  let confidence := Math_max (lit 0.4) (of_Z 1 - volatility * of_Z 10) in
  mk_predictions h1 d1 d7 confidence.

Definition determineFlowDirection (predicted current : N) : FlowDirection :=
  let change := (predicted - current) / current in
  if change >? lit 0.01 then inflow
  else if change <? - lit 0.01 then outflow
  else stable.

(** [historicalTVL[historicalTVL.length - 1]?.tvl || 0]. *)
Definition lastTVL (historicalTVL : list (TVLPoint.t N)) : N :=
  match point_at historicalTVL (len historicalTVL - 1) with
  | Some p => if truthy (TVLPoint.tvl p) then TVLPoint.tvl p else of_Z 0
  | None => of_Z 0
  end.

(** The body of the [try] block: none of its operations throws.  The
    three draws of [generateTVLPredictions] are [rand 0], [rand 1] and
    [rand 2]. *)
Definition predictLiquidityFlow_try (rand : nat -> N) (hourOfDay dayOfWeek : Z)
    (historicalTVL : list (TVLPoint.t N)) (upgradeEvent : option (UpgradeEvent.t N))
  : outcome (LiquidityPrediction.t N) :=
  let currentTVL := lastTVL historicalTVL in
  let trendComponent := calculateTrend historicalTVL in
  let seasonalComponent := calculateSeasonality hourOfDay dayOfWeek historicalTVL in
  let volatilityComponent := calculateTVLVolatility historicalTVL in
  let eventImpact :=
    match upgradeEvent with
    | Some ev => calculateEventImpact ev
    | None => of_Z 1
    end in
  let predictions :=
    generateTVLPredictions rand currentTVL trendComponent seasonalComponent
      volatilityComponent eventImpact in
  Resolved (LiquidityPrediction.mk currentTVL (h1 predictions) (d1 predictions)
              (d7 predictions)
              (determineFlowDirection (h1 predictions) currentTVL)
              (p_confidence predictions)).

(** The [catch] block: mock predictions from six random draws. *)
Definition predictLiquidityFlow_catch (rand : nat -> N) : outcome (LiquidityPrediction.t N) :=
  let currentTVL := rand 0%nat * of_Z 1000000000 in
  Resolved (LiquidityPrediction.mk currentTVL
              (currentTVL * (of_Z 1 + (rand 1%nat - lit 0.5) * lit 0.02))
              (currentTVL * (of_Z 1 + (rand 2%nat - lit 0.5) * lit 0.1))
              (currentTVL * (of_Z 1 + (rand 3%nat - lit 0.5) * lit 0.3))
              (if rand 4%nat >? lit 0.5 then inflow else outflow)
              (rand 5%nat * lit 0.3 + lit 0.7)).

Definition predictLiquidityFlow (rand : nat -> N) (hourOfDay dayOfWeek : Z)
    (historicalTVL : list (TVLPoint.t N)) (upgradeEvent : option (UpgradeEvent.t N))
  : outcome (LiquidityPrediction.t N) :=
  try_catch (predictLiquidityFlow_try rand hourOfDay dayOfWeek historicalTVL upgradeEvent)
            (fun _ => predictLiquidityFlow_catch rand).







Definition predictYieldImpact (rand : nat -> N) (currentYield liquidityChange : N)
    (protocolType : string) : outcome (YieldImpact.t N) :=
  let utilizationImpact := if liquidityChange >? of_Z 0 then - lit 0.1 else lit 0.1 in
  let protocolMultiplier :=
    lookup_or [("lending"%string, lit 1.2);
               ("dex"%string, lit 0.8);
               ("yield_farming"%string, lit 1.5);
               ("staking"%string, lit 0.6)] protocolType (lit 1.0) in
  let impact := utilizationImpact * protocolMultiplier in
  let newYield := currentYield * (of_Z 1 + impact) in
  Resolved (YieldImpact.mk newYield impact (rand 0%nat * lit 0.3 + lit 0.7)).

End Service.
End LiquidityPredictionService.

(* ================================================================= *)
(** * ExecutionGuidanceService *)

Module ExecutionGuidanceService.
Section Service.
Context {N : Type} {num : Number N}.
Local Open Scope num_scope.

(** [actionScore] only takes small integer values; it is kept in [Z]. *)
Definition determineOptimalAction (riskAssessment : RiskAssessment.t N)
    (volatilityPrediction : VolatilityPrediction.t N)
    (liquidityPrediction : LiquidityPrediction.t N)
    (marketData : MarketData.t N) : Action :=
  let actionScore := 0%Z in
  let actionScore :=
    if RiskAssessment.overall riskAssessment <? of_Z 30 then (actionScore + 2)%Z
    else if RiskAssessment.overall riskAssessment >? of_Z 70 then (actionScore - 2)%Z
    else actionScore in
  let actionScore :=
    if VolatilityPrediction.predicted24h volatilityPrediction
       >? VolatilityPrediction.current volatilityPrediction * lit 1.5
    then (actionScore - 1)%Z else actionScore in
  let actionScore :=
    match LiquidityPrediction.flowDirection liquidityPrediction with
    | inflow => (actionScore + 1)%Z
    | outflow => (actionScore - 1)%Z
    | stable => actionScore
    end in
  let actionScore :=
    if MarketData.change24h marketData >? of_Z 5 then (actionScore + 1)%Z
    else if MarketData.change24h marketData <? - of_Z 5 then (actionScore - 1)%Z
    else actionScore in
  if (actionScore >=? 2)%Z then buy
  else if (actionScore <=? -2)%Z then sell
  else if (RiskAssessment.overall riskAssessment >? of_Z 60)
          || (VolatilityPrediction.predicted24h volatilityPrediction >? lit 0.5)
  then hedge
  else hold.

Definition calculateRiskConsistency (riskAssessment : RiskAssessment.t N) : N :=
  let risks := [ RiskAssessment.technical riskAssessment;
                 RiskAssessment.governance riskAssessment;
                 RiskAssessment.market riskAssessment;
                 RiskAssessment.liquidity riskAssessment ] in
  let mean := fold_left (fun sum risk => sum + risk) risks (of_Z 0) / of_Z (len risks) in
  let variance :=
    fold_left (fun sum risk => sum + (risk - mean) ** 2) risks (of_Z 0) / of_Z (len risks) in
  Math_max (lit 0.3) (of_Z 1 - Math_sqrt variance / of_Z 50).

Definition calculateActionConfidence (riskAssessment : RiskAssessment.t N)
    (volatilityPrediction : VolatilityPrediction.t N)
    (liquidityPrediction : LiquidityPrediction.t N) : N :=
  let volatilityConfidence := VolatilityPrediction.confidence volatilityPrediction in
  let liquidityConfidence := LiquidityPrediction.confidence liquidityPrediction in
  let riskConsistency := calculateRiskConsistency riskAssessment in
  (volatilityConfidence + liquidityConfidence + riskConsistency) / of_Z 3.

Definition calculateOptimalTiming (clock : nat -> N)
    (volatilityPrediction : VolatilityPrediction.t N)
    (liquidityPrediction : LiquidityPrediction.t N) (action : Action) : Timing.t N :=
  let now := clock 0%nat in
  let entryDelay := of_Z 0 in
  let exitDelay := of_Z 86400000 in
  let entryDelay :=
    if VolatilityPrediction.predicted1h volatilityPrediction
       <? VolatilityPrediction.current volatilityPrediction
    then of_Z 3600000 else entryDelay in
  let entryDelay :=
    match LiquidityPrediction.flowDirection liquidityPrediction, action with
    | inflow, buy => Math_min entryDelay (of_Z 1800000)
    | _, _ => entryDelay
    end in
  let exitDelay :=
    match action with
    | hedge =>
        if VolatilityPrediction.predicted24h volatilityPrediction >? lit 0.3
        then of_Z 172800000 else of_Z 86400000
    | buy => of_Z 604800000
    | _ => exitDelay
    end in
  Timing.mk (now + entryDelay) (now + entryDelay + exitDelay).

Definition generateRiskMitigationStrategies (riskAssessment : RiskAssessment.t N)
    (volatilityPrediction : VolatilityPrediction.t N) (action : Action) : list string :=
  let strategies := [] in
  let strategies := strategies ++ ["Implement stop-loss orders at 5-10% below entry"%string] in
  let strategies := strategies ++ ["Monitor market conditions every 4 hours"%string] in
  let strategies :=
    if VolatilityPrediction.predicted24h volatilityPrediction >? lit 0.3
    then strategies ++ ["Use smaller position sizes due to high volatility"%string;
                        "Consider options strategies for volatility hedging"%string]
    else strategies in
  let strategies :=
    if RiskAssessment.governance riskAssessment >? of_Z 60
    then strategies ++ ["Monitor governance proposals closely"%string;
                        "Prepare for potential governance-driven price movements"%string]
    else strategies in
  let strategies :=
    if RiskAssessment.liquidity riskAssessment >? of_Z 60
    then strategies ++ ["Ensure sufficient liquidity buffers"%string;
                        "Consider staggered entry/exit strategies"%string]
    else strategies in
  let strategies :=
    if RiskAssessment.technical riskAssessment >? of_Z 60
    then strategies ++ ["Review smart contract audit reports"%string;
                        "Monitor protocol upgrade implementations"%string]
    else strategies in
  let strategies :=
    match action with
    | hedge => strategies ++ ["Use correlated assets for hedging"%string;
                              "Consider derivatives for downside protection"%string]
    | _ => strategies
    end in
  strategies.

Definition assets : list string :=
  ["ETH"; "BTC"; "USDC"; "PROTOCOL_TOKEN"]%string.

Definition currentWeights : list N := [lit 0.4; lit 0.3; lit 0.2; lit 0.1].

(** The [assets.forEach] loop: the recommendations before they are
    normalized. *)
Definition adjustedRecommendations (riskAssessment : RiskAssessment.t N)
    (userProfile : option (UserProfile.t N)) : list (Rebalancing.t N) :=
  let riskTolerance :=
    match userProfile with
    | Some u => if truthy (UserProfile.riskTolerance u)
                then UserProfile.riskTolerance u else lit 0.5
    | None => lit 0.5
    end in
  let overallRisk := RiskAssessment.overall riskAssessment / of_Z 100 in
  reduce
    (fun recommendations asset index =>
       let recommendedWeight := currentWeights.[index] in
       let recommendedWeight :=
         if String.eqb asset "USDC" then
           Math_min (lit 0.5) (currentWeights.[index] + overallRisk * lit 0.2)
         else if String.eqb asset "PROTOCOL_TOKEN" then
           if (RiskAssessment.technical riskAssessment >? of_Z 60)
              || (RiskAssessment.governance riskAssessment >? of_Z 60)
           then Math_max (lit 0.05) (currentWeights.[index] * lit 0.5)
           else recommendedWeight
         else recommendedWeight in
       recommendations ++ [Rebalancing.mk asset currentWeights.[index] recommendedWeight])
    assets [].

Definition generateRebalancingRecommendations (riskAssessment : RiskAssessment.t N)
    (marketData : MarketData.t N) (userProfile : option (UserProfile.t N))
  : list (Rebalancing.t N) :=
  let recommendations := adjustedRecommendations riskAssessment userProfile in
  let totalWeight :=
    fold_left (fun sum rec => sum + Rebalancing.recommendedWeight rec)
              recommendations (of_Z 0) in
  map (fun rec =>
         Rebalancing.mk (Rebalancing.asset rec) (Rebalancing.currentWeight rec)
           (Rebalancing.recommendedWeight rec / totalWeight))
      recommendations.

(** The body of the [try] block: none of its operations throws, and it
    makes no random draw. *)
Definition generateExecutionGuidance_try (clock : nat -> N)
    (riskAssessment : RiskAssessment.t N)
    (volatilityPrediction : VolatilityPrediction.t N)
    (liquidityPrediction : LiquidityPrediction.t N)
    (marketData : MarketData.t N) (userProfile : option (UserProfile.t N))
  : outcome (ExecutionGuidance.t N) :=
  let action :=
    determineOptimalAction riskAssessment volatilityPrediction liquidityPrediction marketData in
  let confidence :=
    calculateActionConfidence riskAssessment volatilityPrediction liquidityPrediction in
  let optimalTiming :=
    calculateOptimalTiming clock volatilityPrediction liquidityPrediction action in
  let riskMitigation :=
    generateRiskMitigationStrategies riskAssessment volatilityPrediction action in
  let portfolioRebalancing :=
    generateRebalancingRecommendations riskAssessment marketData userProfile in
  Resolved (ExecutionGuidance.mk action confidence optimalTiming riskMitigation
              portfolioRebalancing).

(** The [catch] block: the safe default guidance. *)
Definition generateExecutionGuidance_catch (clock : nat -> N)
  : outcome (ExecutionGuidance.t N) :=
  Resolved (ExecutionGuidance.mk hold (lit 0.5)
              (Timing.mk (clock 0%nat + of_Z 3600000) (clock 1%nat + of_Z 86400000))
              ["Monitor market conditions"; "Set stop losses"; "Diversify holdings"]%string
              []).

Definition generateExecutionGuidance (clock : nat -> N)
    (riskAssessment : RiskAssessment.t N)
    (volatilityPrediction : VolatilityPrediction.t N)
    (liquidityPrediction : LiquidityPrediction.t N)
    (marketData : MarketData.t N) (userProfile : option (UserProfile.t N))
  : outcome (ExecutionGuidance.t N) :=
  try_catch (generateExecutionGuidance_try clock riskAssessment volatilityPrediction
               liquidityPrediction marketData userProfile)
            (fun _ => generateExecutionGuidance_catch clock).

(** The four draws of [calculatePortfolioMetrics] are [rand 0] to
    [rand 3], in the order of the source; [riskAssessment] is not read. *)
Definition calculatePortfolioMetrics (rand : nat -> N) (positions : list (Position.t N))
    (riskAssessment : RiskAssessment.t N) : outcome (PortfolioMetrics.t N) :=
  let totalValue := fold_left (fun sum pos => sum + Position.value pos) positions (of_Z 0) in
  let riskAdjustedReturn := rand 0%nat * lit 0.2 - lit 0.05 in
  let sharpeRatio := rand 1%nat * of_Z 2 in
  let maxDrawdown := rand 2%nat * lit 0.3 in
  let valueAtRisk := totalValue * (rand 3%nat * lit 0.1 + lit 0.05) in
  let weights := map (fun pos => Position.value pos / totalValue) positions in
  let herfindahlIndex := fold_left (fun sum w => sum + w * w) weights (of_Z 0) in
  let diversificationRatio :=
    (of_Z 1 - herfindahlIndex) / (of_Z 1 - of_Z 1 / of_Z (len positions)) in
  Resolved (PortfolioMetrics.mk totalValue riskAdjustedReturn sharpeRatio maxDrawdown
              valueAtRisk diversificationRatio).

End Service.
End ExecutionGuidanceService.

(* ================================================================= *)
(** * The application shell (App.tsx) *)

Module App.

(** The state update of [handleNetworkSelect]: the selected networks
    after a click on [networkId]. *)
Definition handleNetworkSelect (prev : list string) (networkId : string) : list string :=
  if existsb (String.eqb networkId) prev
  then filter (fun id => negb (String.eqb id networkId)) prev
  else prev ++ [networkId].

End App.


(* ================================================================= *)
(** * The binary64 instance *)

Module Binary64.

(** An integer of the source as a number; exact below 2^53, which covers
    the array lengths, indices and integer literals of the services. *)
Definition from_Z (z : Z) : float :=
  match z with
  | Zneg p => PrimFloat.opp (of_uint63 (Uint63.of_Z (Zpos p)))
  | _ => of_uint63 (Uint63.of_Z z)
  end.

(** [Math.max] and [Math.min]: [NaN] if an argument is [NaN]; [+0] is
    larger than [-0]. *)
Definition max (a b : float) : float :=
  if PrimFloat.is_nan a || PrimFloat.is_nan b then nan
  else if PrimFloat.ltb a b then b
  else if PrimFloat.ltb b a then a
  else if get_sign a then b else a.

Definition min (a b : float) : float :=
  if PrimFloat.is_nan a || PrimFloat.is_nan b then nan
  else if PrimFloat.ltb a b then a
  else if PrimFloat.ltb b a then b
  else if get_sign a then a else b.

(** [Math.pow] with a positive integer exponent, by repeated
    multiplication; for [n = 2] this is the correctly rounded square. *)
Definition pow (x : float) (n : positive) : float :=
  Pos.iter_op PrimFloat.mul n x.

(** [Math.log].  ECMA-262 fixes the result on [NaN], negative numbers,
    zeros, [1] and [+Infinity], and leaves it implementation-approximated
    elsewhere; there the model computes [e * ln 2 + 2 * atanh ((m-1)/(m+1))]
    for [x = m * 2^e] with [m] in [[sqrt(1/2), sqrt 2)], with [ln 2] split
    in a high and a low part as the usual libm implementations do. *)
Definition ln2_hi : float := 0x1.62e42fee00000p-1.
Definition ln2_lo : float := 0x1.a39ef35793c76p-33.
Definition sqrt_half : float := 0x1.6a09e667f3bcdp-1.

Definition atanh_series (s : float) : float :=
  let s2 := (s * s)%float in
  let odd (k : Z) := (1 / from_Z k)%float in
  (s * (1 + s2 * (odd 3%Z + s2 * (odd 5%Z + s2 * (odd 7%Z + s2 * (odd 9%Z +
    s2 * (odd 11%Z + s2 * (odd 13%Z + s2 * (odd 15%Z + s2 * (odd 17%Z +
    s2 * (odd 19%Z + s2 * (odd 21%Z + s2 * odd 23%Z))))))))))))%float.

Definition log (x : float) : float :=
  if PrimFloat.is_nan x then nan
  else if PrimFloat.ltb x 0 then nan
  else if PrimFloat.eqb x 0 then neg_infinity
  else if PrimFloat.eqb x 1 then 0%float
  else if PrimFloat.eqb x infinity then infinity
  else
    let (m, e) := Z.frexp x in
    let (m, e) := if PrimFloat.ltb m sqrt_half then ((m * 2)%float, (e - 1)%Z) else (m, e) in
    (from_Z e * ln2_hi + (2 * atanh_series ((m - 1) / (m + 1)) + from_Z e * ln2_lo))%float.

#[global] Instance number : Number float := {|
  of_Z := from_Z;
  num_add := PrimFloat.add;
  num_sub := PrimFloat.sub;
  num_mul := PrimFloat.mul;
  num_div := PrimFloat.div;
  num_opp := PrimFloat.opp;
  num_ltb := PrimFloat.ltb;
  num_leb := PrimFloat.leb;
  num_eqb := PrimFloat.eqb;
  Math_abs := PrimFloat.abs;
  Math_sqrt := PrimFloat.sqrt;
  Math_log := log;
  Math_max := max;
  Math_min := min;
  Math_pow := pow
|}.

End Binary64.

(* ================================================================= *)
(** * The exact instance *)

Module Exact.

(** A real number, an infinity, or [NaN].  There is one zero; it behaves
    as [+0]. *)
Inductive xreal : Type :=
| Fin (r : R)
| PInf
| NInf
| XNaN.

Definition Rcmp (x y : R) : comparison :=
  if Rlt_dec x y then Lt else if Rlt_dec y x then Gt else Eq.

(** The infinity of the sign of [c]; [NaN] for [Eq]. *)
Definition inf_of (c : comparison) : xreal :=
  match c with Gt => PInf | Lt => NInf | Eq => XNaN end.

Definition opp (x : xreal) : xreal :=
  match x with
  | Fin r => Fin (- r)
  | PInf => NInf
  | NInf => PInf
  | XNaN => XNaN
  end.

Definition add (x y : xreal) : xreal :=
  match x, y with
  | XNaN, _ | _, XNaN => XNaN
  | Fin a, Fin b => Fin (a + b)
  | PInf, NInf | NInf, PInf => XNaN
  | PInf, _ | _, PInf => PInf
  | NInf, _ | _, NInf => NInf
  end.

Definition sub (x y : xreal) : xreal := add x (opp y).

(** The sign of an extended real, as a comparison with zero. *)
Definition sign (x : xreal) : option comparison :=
  match x with
  | Fin r => Some (Rcmp r 0)
  | PInf => Some Gt
  | NInf => Some Lt
  | XNaN => None
  end.

Definition sign_mul (c d : comparison) : comparison :=
  match c, d with
  | Eq, _ | _, Eq => Eq
  | Gt, Gt | Lt, Lt => Gt
  | _, _ => Lt
  end.

Definition mul (x y : xreal) : xreal :=
  match x, y with
  | Fin a, Fin b => Fin (a * b)
  | _, _ =>
      match sign x, sign y with
      | Some c, Some d => inf_of (sign_mul c d)
      | _, _ => XNaN
      end
  end.

Definition div (x y : xreal) : xreal :=
  match x, y with
  | XNaN, _ | _, XNaN => XNaN
  | Fin a, Fin b =>
      match Rcmp b 0 with
      | Eq => inf_of (Rcmp a 0)
      | _ => Fin (a / b)
      end
  | Fin _, _ => Fin 0
  | _, Fin b =>
      match Rcmp b 0 with
      | Lt => opp x
      | _ => x
      end
  | _, _ => XNaN
  end.

Definition compare (x y : xreal) : option comparison :=
  match x, y with
  | XNaN, _ | _, XNaN => None
  | Fin a, Fin b => Some (Rcmp a b)
  | PInf, PInf | NInf, NInf => Some Eq
  | NInf, _ | _, PInf => Some Lt
  | PInf, _ | _, NInf => Some Gt
  end.

Definition ltb (x y : xreal) : bool :=
  match compare x y with Some Lt => true | _ => false end.

Definition leb (x y : xreal) : bool :=
  match compare x y with Some (Lt | Eq) => true | _ => false end.

Definition eqb (x y : xreal) : bool :=
  match compare x y with Some Eq => true | _ => false end.

Definition abs (x : xreal) : xreal :=
  match x with
  | Fin r => Fin (Rabs r)
  | PInf | NInf => PInf
  | XNaN => XNaN
  end.

Definition sqrt (x : xreal) : xreal :=
  match x with
  | Fin r => match Rcmp r 0 with Lt => XNaN | _ => Fin (R_sqrt.sqrt r) end
  | PInf => PInf
  | NInf | XNaN => XNaN
  end.

Definition log (x : xreal) : xreal :=
  match x with
  | Fin r => match Rcmp r 0 with Lt => XNaN | Eq => NInf | Gt => Fin (ln r) end
  | PInf => PInf
  | NInf | XNaN => XNaN
  end.

Definition max (x y : xreal) : xreal :=
  match compare x y with
  | None => XNaN
  | Some Lt => y
  | Some _ => x
  end.

Definition min (x y : xreal) : xreal :=
  match compare x y with
  | None => XNaN
  | Some Gt => y
  | Some _ => x
  end.

Definition pow (x : xreal) (n : positive) : xreal :=
  match x with
  | Fin r => Fin (r ^ Pos.to_nat n)
  | PInf => PInf
  | NInf => if Z.even (Zpos n) then PInf else NInf
  | XNaN => XNaN
  end.

#[global] Instance number : Number xreal := {|
  of_Z := fun z => Fin (IZR z);
  num_add := add;
  num_sub := sub;
  num_mul := mul;
  num_div := div;
  num_opp := opp;
  num_ltb := ltb;
  num_leb := leb;
  num_eqb := eqb;
  Math_abs := abs;
  Math_sqrt := sqrt;
  Math_log := log;
  Math_max := max;
  Math_min := min;
  Math_pow := pow
|}.

End Exact.

(* ================================================================= *)
(** * Vocabulary of the statements *)

Section Vocabulary.
Context {N : Type} {num : Number N}.
Local Open Scope num_scope.

(** The sum of the recommended weights, added up in list order. *)
Definition totalRecommended (l : list (Rebalancing.t N)) : N :=
  fold_left (fun sum rec => sum + Rebalancing.recommendedWeight rec) l (of_Z 0).

(** The decision rule as the specification words it: a score made of
    independent contributions, then the resolution of the score. *)
Definition reference_score (risk : RiskAssessment.t N) (vol : VolatilityPrediction.t N)
    (liq : LiquidityPrediction.t N) (market : MarketData.t N) : Z :=
  let lowRisk := if RiskAssessment.overall risk <? of_Z 30 then 2%Z else 0%Z in
  let highRisk := if RiskAssessment.overall risk >? of_Z 70 then (-2)%Z else 0%Z in
  let risingVolatility :=
    if VolatilityPrediction.predicted24h vol >? VolatilityPrediction.current vol * lit 1.5
    then (-1)%Z else 0%Z in
  let flow :=
    match LiquidityPrediction.flowDirection liq with
    | inflow => 1%Z
    | outflow => (-1)%Z
    | stable => 0%Z
    end in
  let marketUp := if MarketData.change24h market >? of_Z 5 then 1%Z else 0%Z in
  let marketDown := if MarketData.change24h market <? - of_Z 5 then (-1)%Z else 0%Z in
  (lowRisk + highRisk + risingVolatility + flow + marketUp + marketDown)%Z.

Definition reference_action (risk : RiskAssessment.t N) (vol : VolatilityPrediction.t N)
    (liq : LiquidityPrediction.t N) (market : MarketData.t N) : Action :=
  let score := reference_score risk vol liq market in
  if (score >=? 2)%Z then buy
  else if (score <=? -2)%Z then sell
  else if (RiskAssessment.overall risk >? of_Z 60)
          || (VolatilityPrediction.predicted24h vol >? lit 0.5)
  then hedge
  else hold.

(** A clamped parameter: [NaN], or a number between [lo] and [hi]. *)
Definition nan_or_within (lo hi x : N) : Prop :=
  isNaN x = true \/ ((lo <=? x) = true /\ (x <=? hi) = true).

(** A zero of either sign, or [NaN]. *)
Definition zero_or_NaN (x : N) : Prop :=
  isNaN x = true \/ (x =? of_Z 0) = true.

(** [NaN], or a number that is at least [lo]. *)
Definition nan_or_at_least (lo x : N) : Prop :=
  isNaN x = true \/ (lo <=? x) = true.

(** The invariant of the fitted parameters as the specification states
    it, at one return series. *)
Definition stationary_fit (returns : list N) : Prop :=
  let p := VolatilityModelingService.fitGARCH returns in
  (lit 0.01 <=? GarchParams.alpha p) = true /\ (GarchParams.alpha p <=? lit 0.99) = true
  /\ (lit 0.01 <=? GarchParams.beta p) = true /\ (GarchParams.beta p <=? lit 0.99) = true
  /\ (lit 0.001 <=? GarchParams.omega p) = true
  /\ (GarchParams.alpha p + GarchParams.beta p <? of_Z 1) = true.

(** "Fails with [InsufficientDataError]", at one call. *)
Definition rejects_insufficient_data (rand : nat -> N) (prices : list N)
    (upgradeEvent : option (UpgradeEvent.t N)) : Prop :=
  VolatilityModelingService.predictVolatility rand prices upgradeEvent
  = Rejected "InsufficientDataError".

(** "Fails with [ModelInstabilityError] when alpha + beta >= 1 after
    clamping", at one call. *)
Definition guards_instability (rand : nat -> N) (prices : list N)
    (upgradeEvent : option (UpgradeEvent.t N)) : Prop :=
  let p := VolatilityModelingService.fitGARCH
             (VolatilityModelingService.calculateReturns prices) in
  (GarchParams.alpha p + GarchParams.beta p >=? of_Z 1) = true ->
  VolatilityModelingService.predictVolatility rand prices upgradeEvent
  = Rejected "ModelInstabilityError".


(** [|x - target| <= tolerance], as a test would check it. *)
Definition within (x target tolerance : N) : bool :=
  Math_abs (x - target) <=? tolerance.

(** The recommended weight listed for [asset], [NaN] if there is none. *)
Definition recommendedFor (asset : string) (l : list (Rebalancing.t N)) : N :=
  match find (fun rec => String.eqb (Rebalancing.asset rec) asset) l with
  | Some rec => Rebalancing.recommendedWeight rec
  | None => NaN
  end.

(** Sample inputs for the binary64 runs: the integers from 0 to 100, and
    a risk assessment with the given overall and technical levels. *)
Definition percents : list Z := map Z.of_nat (seq 0 101).

Definition sampleRisk (overall technical : Z) : RiskAssessment.t N :=
  RiskAssessment.mk (of_Z overall) (of_Z technical) (of_Z 0) (of_Z 0) (of_Z 0) (of_Z 0).

End Vocabulary.

(* ================================================================= *)
(** * Vocabulary of the further properties *)

(** No string occurs twice in the list. *)
Fixpoint distinct (l : list string) : bool :=
  match l with
  | [] => true
  | x :: l' => negb (existsb (String.eqb x) l') && distinct l'
  end.

Section Flows.
Context {N : Type} {num : Number N}.


End Flows.

(* ================================================================= *)
(** * Facts about binary64 *)

Module Binary64Facts.
Import Binary64.

(** ** The order of [spec_float] *)

Lemma lex_Lt (e1 e2 : Z) (m1 m2 : positive) :
  match (e1 ?= e2)%Z with
  | Lt => Lt | Gt => Gt | Eq => Pos.compare_cont Eq m1 m2
  end = Lt <-> (e1 < e2 \/ e1 = e2 /\ (m1 < m2)%positive)%Z.
Proof.
  change (Pos.compare_cont Eq m1 m2) with (m1 ?= m2)%positive.
  destruct (Z.compare_spec e1 e2); destruct (Pos.compare_spec m1 m2);
    split; intros; try discriminate; try reflexivity; lia.
Qed.

Lemma lex_Gt (e1 e2 : Z) (m1 m2 : positive) :
  match (e1 ?= e2)%Z with
  | Lt => Gt | Gt => Lt | Eq => CompOpp (Pos.compare_cont Eq m1 m2)
  end = Lt <-> (e2 < e1 \/ e1 = e2 /\ (m2 < m1)%positive)%Z.
Proof.
  change (Pos.compare_cont Eq m1 m2) with (m1 ?= m2)%positive.
  destruct (Z.compare_spec e1 e2); destruct (Pos.compare_spec m1 m2);
    split; simpl; intros; try discriminate; try reflexivity; lia.
Qed.

Lemma SFcompare_antisym (x y : spec_float) :
  SFcompare y x = option_map CompOpp (SFcompare x y).
Proof.
  destruct x as [sx | sx | | sx mx ex], y as [sy | sy | | sy my ey]; simpl;
    try reflexivity;
    try (destruct sx; reflexivity);
    try (destruct sy; reflexivity);
    try (destruct sx, sy; reflexivity).
  change (Pos.compare_cont Eq my mx) with (my ?= mx)%positive.
  change (Pos.compare_cont Eq mx my) with (mx ?= my)%positive.
  destruct sx, sy; simpl; try reflexivity;
    rewrite (Z.compare_antisym ex ey), (Pos.compare_antisym mx my);
    destruct (ex ?= ey)%Z; simpl; try reflexivity;
    destruct (mx ?= my)%positive; reflexivity.
Qed.

Lemma SFltb_trans (x y z : spec_float) :
  SFltb x y = true -> SFltb y z = true -> SFltb x z = true.
Proof.
  unfold SFltb.
  destruct x as [sx | sx | | sx mx ex], y as [sy | sy | | sy my ey],
           z as [sz | sz | | sz mz ez]; simpl;
    try discriminate;
    try (destruct sx; try discriminate; destruct sy; try discriminate;
         destruct sz; try discriminate; reflexivity);
    try (destruct sx; try discriminate; destruct sy; try discriminate; reflexivity);
    try (destruct sx; try discriminate; destruct sz; try discriminate; reflexivity);
    try (destruct sy; try discriminate; destruct sz; try discriminate; reflexivity).
  destruct sx, sy, sz; simpl; try discriminate; try reflexivity; intros H1 H2.
  - assert (Hx := proj1 (lex_Gt ex ey mx my)).
    assert (Hy := proj1 (lex_Gt ey ez my mz)).
    assert (Hz := proj2 (lex_Gt ex ez mx mz)).
    destruct (match (ex ?= ey)%Z with Lt => Gt | Gt => Lt | Eq => _ end); try discriminate.
    destruct (match (ey ?= ez)%Z with Lt => Gt | Gt => Lt | Eq => _ end); try discriminate.
    rewrite Hz; [reflexivity |]. specialize (Hx eq_refl). specialize (Hy eq_refl). lia.
  - assert (Hx := proj1 (lex_Lt ex ey mx my)).
    assert (Hy := proj1 (lex_Lt ey ez my mz)).
    assert (Hz := proj2 (lex_Lt ex ez mx mz)).
    destruct (match (ex ?= ey)%Z with Lt => Lt | Gt => Gt | Eq => _ end); try discriminate.
    destruct (match (ey ?= ez)%Z with Lt => Lt | Gt => Gt | Eq => _ end); try discriminate.
    rewrite Hz; [reflexivity |]. specialize (Hx eq_refl). specialize (Hy eq_refl). lia.
Qed.

Lemma SFcompare_nan (x y : spec_float) :
  SFcompare x y = None <-> x = S754_nan \/ y = S754_nan.
Proof.
  destruct x as [sx | sx | | sx mx ex], y as [sy | sy | | sy my ey]; simpl;
    split; intros H; try discriminate; auto;
    try (destruct H; discriminate).
Qed.

(** ** The order of [float] *)

Lemma is_nan_spec (x : float) : PrimFloat.is_nan x = true <-> Prim2SF x = S754_nan.
Proof.
  unfold PrimFloat.is_nan. rewrite FloatAxioms.eqb_spec. unfold SFeqb.
  destruct (Prim2SF x) as [s | s | | s m e]; simpl.
  - split; discriminate.
  - destruct s; split; discriminate.
  - split; reflexivity.
  - destruct s; rewrite Z.compare_refl;
    change (Pos.compare_cont Eq m m) with (m ?= m)%positive;
    rewrite Pos.compare_refl; split; discriminate.
Qed.

Lemma ltb_trans (x y z : float) :
  PrimFloat.ltb x y = true -> PrimFloat.ltb y z = true -> PrimFloat.ltb x z = true.
Proof. rewrite !FloatAxioms.ltb_spec. apply SFltb_trans. Qed.

Lemma ltb_leb (x y : float) : PrimFloat.ltb x y = true -> PrimFloat.leb x y = true.
Proof.
  rewrite FloatAxioms.ltb_spec, FloatAxioms.leb_spec. unfold SFltb, SFleb.
  destruct (SFcompare _ _) as [[ | | ] | ]; intros; try discriminate; reflexivity.
Qed.

Lemma not_ltb_leb (x y : float) :
  PrimFloat.is_nan x = false -> PrimFloat.is_nan y = false ->
  PrimFloat.ltb x y = false -> PrimFloat.leb y x = true.
Proof.
  intros Hx Hy. rewrite FloatAxioms.ltb_spec, FloatAxioms.leb_spec. unfold SFltb, SFleb.
  rewrite (SFcompare_antisym (Prim2SF x) (Prim2SF y)).
  destruct (SFcompare (Prim2SF x) (Prim2SF y)) as [[ | | ] | ] eqn:E;
    simpl; intros; try discriminate; try reflexivity.
  apply SFcompare_nan in E. rewrite <- !is_nan_spec in E.
  destruct E; congruence.
Qed.

Lemma leb_refl (x : float) : PrimFloat.is_nan x = false -> PrimFloat.leb x x = true.
Proof.
  intros Hx. apply not_ltb_leb; try assumption.
  destruct (PrimFloat.ltb x x) eqn:E; [| reflexivity].
  rewrite FloatAxioms.ltb_spec in E. unfold SFltb in E.
  assert (A := SFcompare_antisym (Prim2SF x) (Prim2SF x)).
  destruct (SFcompare (Prim2SF x) (Prim2SF x)) as [[ | | ] | ]; discriminate.
Qed.

Lemma leb_not_nan (x y : float) :
  PrimFloat.leb x y = true -> PrimFloat.is_nan x = false /\ PrimFloat.is_nan y = false.
Proof.
  rewrite FloatAxioms.leb_spec. unfold SFleb.
  destruct (SFcompare _ _) as [c | ] eqn:E; [| discriminate]. intros _.
  split.
  - destruct (PrimFloat.is_nan x) eqn:Hx; [| reflexivity].
    apply is_nan_spec in Hx. rewrite Hx in E. discriminate.
  - destruct (PrimFloat.is_nan y) eqn:Hy; [| reflexivity].
    apply is_nan_spec in Hy. rewrite Hy in E.
    destruct (Prim2SF x); discriminate.
Qed.

(** Two thresholds in increasing order are never both crossed outwards. *)
Lemma thresholds_exclusive (x lo hi : float) :
  PrimFloat.ltb hi lo = false ->
  PrimFloat.ltb x lo = true -> PrimFloat.ltb hi x = true -> False.
Proof.
  intros Hlh Hx Hy. rewrite (ltb_trans hi x lo Hy Hx) in Hlh. discriminate.
Qed.

(** ** [NaN] and the zeros under multiplication, subtraction and division *)

Lemma mul_nan_l (x : float) : PrimFloat.mul nan x = nan.
Proof.
  apply Prim2SF_inj. rewrite FloatAxioms.mul_spec.
  replace (Prim2SF nan) with S754_nan by reflexivity. reflexivity.
Qed.

Lemma zero_or_NaN_spec (x : float) :
  zero_or_NaN x <-> Prim2SF x = S754_nan \/ exists s, Prim2SF x = S754_zero s.
Proof.
  unfold zero_or_NaN. change (isNaN x) with (PrimFloat.is_nan x).
  rewrite is_nan_spec. cbn [num_eqb number of_Z].
  rewrite FloatAxioms.eqb_spec.
  replace (Prim2SF (from_Z 0)) with (S754_zero false) by reflexivity.
  unfold SFeqb.
  destruct (Prim2SF x) as [s | s | | s m e]; simpl.
  - split; [right; exists s; reflexivity | right; reflexivity].
  - split; [intros [H | H]; [discriminate | destruct s; discriminate]
           | intros [H | [s' H]]; discriminate].
  - split; left; reflexivity.
  - split; [intros [H | H]; [discriminate | destruct s; discriminate]
           | intros [H | [s' H]]; discriminate].
Qed.

(** Zero times anything is a zero or [NaN], and so is what follows. *)
Lemma mul_zero_or_NaN (x y : float) : zero_or_NaN x -> zero_or_NaN (PrimFloat.mul x y).
Proof.
  rewrite !zero_or_NaN_spec, FloatAxioms.mul_spec. unfold SF64mul.
  intros [-> | [s ->]]; [left; reflexivity |].
  destruct (Prim2SF y) as [sy | sy | | sy my ey]; simpl;
    first [left; reflexivity | right; eexists; reflexivity].
Qed.

(** The relative change from a current value of 0 to a zero or [NaN]. *)
Lemma change_from_zero (h : float) :
  zero_or_NaN h -> PrimFloat.div (PrimFloat.sub h 0) 0 = nan.
Proof.
  rewrite zero_or_NaN_spec. intros H.
  apply Prim2SF_inj. rewrite FloatAxioms.div_spec, FloatAxioms.sub_spec.
  replace (Prim2SF 0) with (S754_zero false) by reflexivity.
  replace (Prim2SF nan) with S754_nan by reflexivity.
  destruct H as [-> | [s ->]]; [reflexivity |].
  destruct s; reflexivity.
Qed.

End Binary64Facts.

(* ================================================================= *)
(** * Facts about the exact instance *)

Module ExactFacts.
Import Exact.
Local Open Scope R_scope.

Lemma Rcmp_lt (a b : R) : a < b -> Rcmp a b = Lt.
Proof. intros H; unfold Rcmp; destruct (Rlt_dec a b); [reflexivity | contradiction]. Qed.

Lemma Rcmp_gt (a b : R) : b < a -> Rcmp a b = Gt.
Proof.
  intros H; unfold Rcmp; destruct (Rlt_dec a b); [lra |].
  destruct (Rlt_dec b a); [reflexivity | contradiction].
Qed.

Lemma Rcmp_eq (a b : R) : a = b -> Rcmp a b = Eq.
Proof.
  intros H; unfold Rcmp; destruct (Rlt_dec a b); [lra |].
  destruct (Rlt_dec b a); [lra | reflexivity].
Qed.

Lemma Rcmp_cases (a b : R) :
  (a < b /\ Rcmp a b = Lt) \/ (a = b /\ Rcmp a b = Eq) \/ (b < a /\ Rcmp a b = Gt).
Proof.
  destruct (Rtotal_order a b) as [H | [H | H]].
  - left; split; [assumption | now apply Rcmp_lt].
  - right; left; split; [assumption | now apply Rcmp_eq].
  - right; right; split; [assumption | now apply Rcmp_gt].
Qed.

Lemma lit_exact (q : Q) :
  @lit xreal _ q = Fin (IZR (Qnum q) / IZR (Zpos (Qden q))).
Proof.
  unfold lit; simpl. rewrite Rcmp_gt; [reflexivity |].
  apply IZR_lt. reflexivity.
Qed.

Lemma div_Fin (a b : R) : b <> 0 -> div (Fin a) (Fin b) = Fin (a / b).
Proof.
  intros Hb; simpl.
  destruct (Rcmp_cases b 0) as [[_ ->] | [[H _] | [_ ->]]];
    [reflexivity | contradiction | reflexivity].
Qed.

Lemma ltb_Fin (a b : R) : ltb (Fin a) (Fin b) = true <-> a < b.
Proof.
  unfold ltb; simpl.
  destruct (Rcmp_cases a b) as [[H ->] | [[H ->] | [H ->]]];
    split; intros; try discriminate; try reflexivity; lra.
Qed.

Lemma ltb_Fin_false (a b : R) : ltb (Fin a) (Fin b) = false <-> b <= a.
Proof.
  unfold ltb; simpl.
  destruct (Rcmp_cases a b) as [[H ->] | [[H ->] | [H ->]]];
    split; intros; try discriminate; try reflexivity; lra.
Qed.

Lemma min_Fin (a b : R) : min (Fin a) (Fin b) = Fin (Rmin a b).
Proof.
  unfold min; simpl.
  destruct (Rcmp_cases a b) as [[H ->] | [[H ->] | [H ->]]]; f_equal.
  - rewrite Rmin_left; lra.
  - rewrite Rmin_left; lra.
  - rewrite Rmin_right; lra.
Qed.

Lemma max_Fin (a b : R) : max (Fin a) (Fin b) = Fin (Rmax a b).
Proof.
  unfold max; simpl.
  destruct (Rcmp_cases a b) as [[H ->] | [[H ->] | [H ->]]]; f_equal.
  - rewrite Rmax_right; lra.
  - rewrite Rmax_left; lra.
  - rewrite Rmax_left; lra.
Qed.

Lemma sqrt_Fin (a : R) : 0 <= a -> sqrt (Fin a) = Fin (R_sqrt.sqrt a).
Proof.
  intros Ha; simpl.
  destruct (Rcmp_cases a 0) as [[H _] | [[_ ->] | [_ ->]]]; [lra | reflexivity ..].
Qed.

End ExactFacts.

(* ================================================================= *)
(** * Loops *)

Section Loops.
Context {S : Type}.

Lemma for_steps_last (n : nat) (i : Z) (body : Z -> S -> S) (s : S) :
  for_steps (Datatypes.S n) i body s = body (i + Z.of_nat n)%Z (for_steps n i body s).
Proof.
  revert i s. induction n as [| n IH]; intros i s.
  - simpl. now rewrite Z.add_0_r.
  - change (for_steps (Datatypes.S (Datatypes.S n)) i body s)
      with (for_steps (Datatypes.S n) (i + 1) body (body i s)).
    rewrite IH. simpl for_steps. f_equal. lia.
Qed.

(** A property that the body establishes from every state holds after
    the loop, provided it runs at least once. *)
Lemma for_loop_establishes (P : S -> Prop) (lo hi : Z) (body : Z -> S -> S) (s : S) :
  (lo < hi)%Z -> (forall i s', P (body i s')) -> P (for_loop lo hi body s).
Proof.
  intros Hlt Hbody. unfold for_loop.
  destruct (Z.to_nat (hi - lo)) as [| n] eqn:E; [lia |].
  rewrite for_steps_last. apply Hbody.
Qed.

(** A property that every step preserves holds after the loop. *)
Lemma for_loop_invariant (P : S -> Prop) (lo hi : Z) (body : Z -> S -> S) (s : S) :
  P s -> (forall i s', (lo <= i < hi)%Z -> P s' -> P (body i s')) ->
  P (for_loop lo hi body s).
Proof.
  unfold for_loop. intros Hs Hbody.
  assert (G : forall n i s', (lo <= i)%Z -> (i + Z.of_nat n <= Z.max lo hi)%Z -> P s' ->
                             P (for_steps n i body s')).
  { induction n as [| n IH]; intros i s' Hi Hn Hs'; [exact Hs' |].
    simpl. apply IH; [lia | lia |]. apply Hbody; [lia | exact Hs']. }
  apply G; [lia | lia | exact Hs].
Qed.
End Loops.

(* ================================================================= *)
(** * VolatilityModelingService on binary64 *)

Section Binary64Volatility.
Import Binary64 Binary64Facts VolatilityModelingService.

Lemma max_nan_r (a b : float) : PrimFloat.is_nan b = true -> max a b = nan.
Proof. intros H; unfold max; rewrite H, orb_true_r; reflexivity. Qed.

Lemma min_nan_r (a b : float) : PrimFloat.is_nan b = true -> min a b = nan.
Proof. intros H; unfold min; rewrite H, orb_true_r; reflexivity. Qed.

Lemma max_cases (a b : float) :
  PrimFloat.is_nan a = false -> PrimFloat.is_nan b = false ->
  (max a b = a /\ PrimFloat.leb b a = true) \/ (max a b = b /\ PrimFloat.leb a b = true).
Proof.
  intros Ha Hb. unfold max. rewrite Ha, Hb; simpl.
  destruct (PrimFloat.ltb a b) eqn:Hab.
  - right; split; [reflexivity | now apply ltb_leb].
  - destruct (PrimFloat.ltb b a) eqn:Hba.
    + left; split; [reflexivity | now apply ltb_leb].
    + destruct (get_sign a).
      * right; split; [reflexivity | now apply not_ltb_leb].
      * left; split; [reflexivity | now apply not_ltb_leb].
Qed.

Lemma min_cases (a b : float) :
  PrimFloat.is_nan a = false -> PrimFloat.is_nan b = false ->
  (min a b = a /\ PrimFloat.leb a b = true) \/ (min a b = b /\ PrimFloat.leb b a = true).
Proof.
  intros Ha Hb. unfold min. rewrite Ha, Hb; simpl.
  destruct (PrimFloat.ltb a b) eqn:Hab.
  - left; split; [reflexivity | now apply ltb_leb].
  - destruct (PrimFloat.ltb b a) eqn:Hba.
    + right; split; [reflexivity | now apply ltb_leb].
    + destruct (get_sign a).
      * left; split; [reflexivity | now apply not_ltb_leb].
      * right; split; [reflexivity | now apply not_ltb_leb].
Qed.

(** [Math.max(lo, Math.min(hi, x))] is [NaN] or lies between the bounds. *)
Lemma clamp_within (lo hi x : float) :
  PrimFloat.leb lo hi = true ->
  nan_or_within lo hi (Math_max lo (Math_min hi x)).
Proof.
  intros Hlh. destruct (leb_not_nan _ _ Hlh) as [Hlo Hhi].
  unfold nan_or_within; simpl.
  destruct (PrimFloat.is_nan x) eqn:Hx.
  - left. rewrite (min_nan_r hi x Hx), max_nan_r; reflexivity.
  - right.
    assert (Hm : PrimFloat.is_nan (min hi x) = false /\ PrimFloat.leb (min hi x) hi = true).
    { destruct (min_cases hi x Hhi Hx) as [[-> H] | [-> H]];
        split; try assumption. now apply leb_refl. }
    destruct Hm as [Hm Hmh].
    destruct (max_cases lo (min hi x) Hlo Hm) as [[-> H] | [-> H]]; split;
      try assumption. now apply leb_refl.
Qed.

Lemma floor_at_least (lo x : float) :
  PrimFloat.is_nan lo = false ->
  nan_or_at_least lo (Math_max lo x).
Proof.
  intros Hlo. unfold nan_or_at_least; simpl.
  destruct (PrimFloat.is_nan x) eqn:Hx.
  - left. rewrite max_nan_r; [reflexivity | assumption].
  - right. destruct (max_cases lo x Hlo Hx) as [[-> H] | [-> H]];
      [now apply leb_refl | assumption].
Qed.

(** C1, as the code has it: after the hundred refinement steps each of
    alpha and beta is [NaN] or lies in [[0.01, 0.99]], and omega is [NaN]
    or at least [0.001].  Nothing bounds alpha + beta below 1. *)
Theorem fitGARCH_parameters_clamped (returns : list float) :
  let p := fitGARCH returns in
  nan_or_within (lit 0.01) (lit 0.99) (GarchParams.alpha p)
  /\ nan_or_within (lit 0.01) (lit 0.99) (GarchParams.beta p)
  /\ nan_or_at_least (lit 0.001) (GarchParams.omega p).
Proof.
  unfold fitGARCH.
  apply (for_loop_establishes
           (fun p : GarchParams.t float =>
              nan_or_within (lit 0.01) (lit 0.99) (GarchParams.alpha p)
              /\ nan_or_within (lit 0.01) (lit 0.99) (GarchParams.beta p)
              /\ nan_or_at_least (lit 0.001) (GarchParams.omega p))).
  - lia.
  - intros i p. unfold optimizeGARCH; cbn [GarchParams.alpha GarchParams.beta GarchParams.omega].
    repeat split.
    + apply clamp_within. reflexivity.
    + apply clamp_within. reflexivity.
    + apply floor_at_least. reflexivity.
Qed.

(** C1, counterexample: on the return series [3; 3; 3] the fit ends with
    alpha = 0.618... and beta = 0.862..., whose sum is not below 1. *)
Lemma fitGARCH_not_stationary :
  fitGARCH [3; 3; 3]%float
  = GarchParams.mk 0x1.3c87f02707351p-1%float 0x1.b98bbba69b2bep-1%float
                   0x1.d7b31706ce3c4p-5%float
  /\ (0x1.3c87f02707351p-1 + 0x1.b98bbba69b2bep-1 <? 1)%float = false
  /\ ~ stationary_fit [3; 3; 3]%float.
Proof.
  assert (E : fitGARCH [3; 3; 3]%float
              = GarchParams.mk 0x1.3c87f02707351p-1%float 0x1.b98bbba69b2bep-1%float
                               0x1.d7b31706ce3c4p-5%float)
    by (vm_compute; reflexivity).
  split; [exact E |]. split; [vm_compute; reflexivity |].
  unfold stationary_fit. rewrite E. cbv zeta.
  intros [_ [_ [_ [_ [_ H]]]]]. vm_compute in H. discriminate.
Qed.


(** ** Short and flat price histories *)

Lemma calculateReturns_short (prices : list float) :
  (List.length prices < 2)%nat -> calculateReturns prices = [].
Proof.
  destruct prices as [| p [| q l]]; simpl; intros H; try lia; reflexivity.
Qed.

(** C2, as the code has it: on a price history with fewer than two
    points nothing is thrown, so the catch block and its random numbers
    are not reached; the promise resolves to a prediction whose current
    volatility is -0 and whose other numbers are all [NaN]. *)
Theorem predictVolatility_short_history (rand : nat -> float) (prices : list float)
    (upgradeEvent : option (UpgradeEvent.t float)) :
  (List.length prices < 2)%nat ->
  predictVolatility rand prices upgradeEvent
  = Resolved (VolatilityPrediction.mk neg_zero nan nan nan nan (GarchParams.mk nan nan nan)).
Proof.
  intros H. unfold predictVolatility, predictVolatility_try.
  rewrite (calculateReturns_short prices H).
  destruct upgradeEvent as [[ty rs] |]; vm_compute; rewrite ?mul_nan_l; reflexivity.
Qed.

Lemma predictVolatility_short_history_witness :
  predictVolatility (fun _ => 0%float) [100%float] None
  = Resolved (VolatilityPrediction.mk neg_zero nan nan nan nan (GarchParams.mk nan nan nan)).
Proof.
  apply (predictVolatility_short_history (fun _ => 0%float) [100%float] None).
  simpl; lia.
Defined.

(** C2, counterexample: the empty history and a one-point history do not
    make the method fail. *)
Lemma predictVolatility_no_typed_error :
  ~ rejects_insufficient_data (fun _ => 0%float) [] None
  /\ ~ rejects_insufficient_data (fun _ => 0%float) [100%float] None.
Proof. split; intros H; vm_compute in H; discriminate. Qed.

(** C3, as the code has it: [predictVolatility] never rejects, with no
    error name whatever.  Whatever the fitted alpha + beta, it resolves to
    the forecast that [generateVolatilityPredictions] computes from the
    fitted parameters; the random source of the catch block has no part in
    the result. *)
Theorem predictVolatility_never_rejects (rand rand' : nat -> float) (prices : list float)
    (upgradeEvent : option (UpgradeEvent.t float)) :
  let returns := calculateReturns prices in
  let fit := fitGARCH returns in
  let current := calculateCurrentVolatility returns in
  let forecast := generateVolatilityPredictions current fit upgradeEvent in
  predictVolatility rand prices upgradeEvent
  = Resolved (VolatilityPrediction.mk current (h1 forecast) (d1 forecast) (d7 forecast)
                (p_confidence forecast) fit)
  /\ (forall error, predictVolatility rand prices upgradeEvent <> Rejected error)
  /\ predictVolatility rand' prices upgradeEvent = predictVolatility rand prices upgradeEvent.
Proof.
  cbv zeta. unfold predictVolatility, predictVolatility_try, try_catch.
  split; [reflexivity |]. split; [| reflexivity].
  intros error H. discriminate H.
Qed.

(** C3, counterexample: on the prices [1; 10; 100; 1000] the fit gives
    alpha + beta = 1.459..., and a forecast is returned. *)
Lemma predictVolatility_unstable_fit_resolves :
  let p := fitGARCH (calculateReturns [1; 10; 100; 1000]%float) in
  (GarchParams.alpha p + GarchParams.beta p >=? of_Z 1)%num = true
  /\ (exists v, predictVolatility (fun _ => 0%float) [1; 10; 100; 1000]%float None
                = Resolved v)
  /\ ~ guards_instability (fun _ => 0%float) [1; 10; 100; 1000]%float None.
Proof.
  assert (E : (GarchParams.alpha (fitGARCH (calculateReturns [1; 10; 100; 1000]%float))
               + GarchParams.beta (fitGARCH (calculateReturns [1; 10; 100; 1000]%float))
               >=? of_Z 1)%num = true) by (vm_compute; reflexivity).
  cbv zeta. split; [exact E |]. split.
  - eexists. reflexivity.
  - unfold guards_instability. cbv zeta. intros H. specialize (H E). discriminate.
Qed.


End Binary64Volatility.

(* ================================================================= *)
(** * ExecutionGuidanceService: the decision rule *)

Section Binary64Decision.
Import Binary64 Binary64Facts ExecutionGuidanceService.

Lemma determineOptimalAction_reference (risk : RiskAssessment.t float)
    (vol : VolatilityPrediction.t float) (liq : LiquidityPrediction.t float)
    (market : MarketData.t float) :
  determineOptimalAction risk vol liq market = reference_action risk vol liq market.
Proof.
  unfold determineOptimalAction, reference_action, reference_score.
  cbv zeta.
  destruct (RiskAssessment.overall risk <? of_Z 30)%num eqn:E1;
    destruct (RiskAssessment.overall risk >? of_Z 70)%num eqn:E2;
    try (exfalso; apply (thresholds_exclusive (RiskAssessment.overall risk)
                           (of_Z 30) (of_Z 70)); [reflexivity | assumption ..]);
    destruct (MarketData.change24h market >? of_Z 5)%num eqn:E3;
    destruct (MarketData.change24h market <? - of_Z 5)%num eqn:E4;
    try (exfalso; apply (thresholds_exclusive (MarketData.change24h market)
                           (- of_Z 5)%num (of_Z 5)); [reflexivity | assumption ..]);
    destruct (VolatilityPrediction.predicted24h vol
              >? VolatilityPrediction.current vol * lit 1.5)%num;
    destruct (LiquidityPrediction.flowDirection liq); reflexivity.
Qed.

(** C4: the action and the mitigation list are functions of
    (risk, vol, liq, market) alone, the clock and the user profile do not
    enter them, and no random draw is made; the action is the one of the
    reference scoring; and the worked example yields buy. *)
Theorem decision_is_deterministic_reference :
  (forall (risk : RiskAssessment.t float) (vol : VolatilityPrediction.t float)
          (liq : LiquidityPrediction.t float) (market : MarketData.t float)
          (clock : nat -> float) (userProfile : option (UserProfile.t float)),
      exists g,
        generateExecutionGuidance clock risk vol liq market userProfile = Resolved g
        /\ ExecutionGuidance.action g = reference_action risk vol liq market
        /\ ExecutionGuidance.riskMitigation g
           = generateRiskMitigationStrategies risk vol (reference_action risk vol liq market))
  /\ (forall (technical governance mkt liquidity timestamp : float)
             (predicted1h predicted7d vconfidence : float) (params : GarchParams.t float)
             (currentTVL p1h p24h p7d lconfidence : float),
         determineOptimalAction
           (RiskAssessment.mk (of_Z 20) technical governance mkt liquidity timestamp)
           (VolatilityPrediction.mk (lit 0.2) predicted1h (lit 0.2) predicted7d
              vconfidence params)
           (LiquidityPrediction.mk currentTVL p1h p24h p7d inflow lconfidence)
           (MarketData.mk (of_Z 6))
         = buy).
Proof.
  split.
  - intros risk vol liq market clock userProfile.
    eexists. split; [reflexivity |].
    cbn [ExecutionGuidance.action ExecutionGuidance.riskMitigation].
    rewrite determineOptimalAction_reference. split; reflexivity.
  - intros. reflexivity.
Qed.

End Binary64Decision.

(* ================================================================= *)
(** * ExecutionGuidanceService: rebalancing and risk consistency *)

Section Rebalancing.
Import ExecutionGuidanceService.
Context {N : Type} {num : Number N}.
Local Open Scope num_scope.

(** The loop over the four assets, unrolled. *)
Lemma adjustedRecommendations_unrolled (risk : RiskAssessment.t N)
    (userProfile : option (UserProfile.t N)) :
  adjustedRecommendations risk userProfile =
  [ Rebalancing.mk "ETH" (lit 0.4) (lit 0.4);
    Rebalancing.mk "BTC" (lit 0.3) (lit 0.3);
    Rebalancing.mk "USDC" (lit 0.2)
      (Math_min (lit 0.5) (lit 0.2 + RiskAssessment.overall risk / of_Z 100 * lit 0.2));
    Rebalancing.mk "PROTOCOL_TOKEN" (lit 0.1)
      (if (RiskAssessment.technical risk >? of_Z 60)
          || (RiskAssessment.governance risk >? of_Z 60)
       then Math_max (lit 0.05) (lit 0.1 * lit 0.5)
       else lit 0.1) ].
Proof. reflexivity. Qed.

(** Assets, their order and their current weights, at every instance
    of the arithmetic and on every input. *)
Lemma rebalancing_assets (risk : RiskAssessment.t N) (marketData : MarketData.t N)
    (userProfile : option (UserProfile.t N)) :
  let recs := generateRebalancingRecommendations risk marketData userProfile in
  map Rebalancing.asset recs = ["ETH"; "BTC"; "USDC"; "PROTOCOL_TOKEN"]%string
  /\ map Rebalancing.currentWeight recs = [lit 0.4; lit 0.3; lit 0.2; lit 0.1].
Proof. split; reflexivity. Qed.

Lemma totalRecommended_map (l : list (Rebalancing.t N)) :
  totalRecommended l
  = fold_left (fun sum w => sum + w) (map Rebalancing.recommendedWeight l) (of_Z 0).
Proof.
  unfold totalRecommended. generalize (of_Z 0).
  induction l as [| r l IH]; intros acc; simpl; [reflexivity | apply IH].
Qed.
End Rebalancing.

Section ExactRebalancing.
Import Exact ExactFacts ExecutionGuidanceService.
Local Open Scope R_scope.

Lemma stable_weight (o : R) :
  0 <= o <= 100 ->
  exists u, Math_min (lit 0.5) (lit 0.2 + Fin o / of_Z 100 * lit 0.2)%num = Fin u
            /\ 2 / 10 <= u <= 5 / 10.
Proof.
  intros Ho. rewrite !lit_exact.
  cbn [Qnum Qden of_Z number num_add num_mul num_div Math_min].
  rewrite div_Fin by lra. cbn [mul add]. rewrite min_Fin.
  eexists; split; [reflexivity |].
  unfold Rmin; destruct (Rle_dec _ _); lra.
Qed.

Lemma token_weight (t g : xreal) :
  exists p,
    (if (t >? of_Z 60) || (g >? of_Z 60)
     then Math_max (lit 0.05) (lit 0.1 * lit 0.5) else lit 0.1)%num = Fin p
    /\ 5 / 100 <= p <= 1 / 10.
Proof.
  destruct (_ || _).
  - rewrite !lit_exact. cbn [Qnum Qden of_Z number num_mul Math_max mul]. rewrite max_Fin.
    eexists; split; [reflexivity |]. unfold Rmax; destruct (Rle_dec _ _); lra.
  - rewrite lit_exact. eexists; split; [reflexivity |]. cbn [Qnum Qden]. lra.
Qed.

(** The recommendations once normalized, for an overall risk in the
    range of the data model: the adjusted weights are 0.4, 0.3, [u] and
    [p], and each is divided by their sum. *)
Lemma recommendations_normalized (o : R) (t g m l ts : xreal)
    (marketData : MarketData.t xreal) (userProfile : option (UserProfile.t xreal)) :
  0 <= o <= 100 ->
  exists u p,
    2 / 10 <= u <= 5 / 10 /\ 5 / 100 <= p <= 1 / 10
    /\ map Rebalancing.recommendedWeight
         (adjustedRecommendations (RiskAssessment.mk (Fin o) t g m l ts) userProfile)
       = [Fin (4 / 10); Fin (3 / 10); Fin u; Fin p]
    /\ map Rebalancing.recommendedWeight
         (generateRebalancingRecommendations (RiskAssessment.mk (Fin o) t g m l ts)
            marketData userProfile)
       = [Fin (4 / 10 / (0 + 4 / 10 + 3 / 10 + u + p));
          Fin (3 / 10 / (0 + 4 / 10 + 3 / 10 + u + p));
          Fin (u / (0 + 4 / 10 + 3 / 10 + u + p));
          Fin (p / (0 + 4 / 10 + 3 / 10 + u + p))].
Proof.
  intros Ho.
  destruct (stable_weight o Ho) as [u [Eu Hu]].
  destruct (token_weight t g) as [p [Ep Hp]].
  exists u, p. split; [exact Hu |]. split; [exact Hp |].
  unfold generateRebalancingRecommendations.
  rewrite adjustedRecommendations_unrolled.
  cbn [RiskAssessment.overall RiskAssessment.technical RiskAssessment.governance].
  rewrite Eu, Ep, !lit_exact.
  cbn [Qnum Qden map fold_left Rebalancing.recommendedWeight Rebalancing.asset
       Rebalancing.currentWeight of_Z number num_add add].
  split; [reflexivity |].
  cbn [num_div]. rewrite !div_Fin by lra. reflexivity.
Qed.

(** C5: for an overall risk between 0 and 100, whatever the other risk
    levels, the market data and the user profile, the recommended weights
    add up to 1 (within 1e-9; in exact arithmetic, to 1). *)
Theorem rebalancing_weights_sum_to_one (o : R) (t g m l ts : xreal)
    (marketData : MarketData.t xreal) (userProfile : option (UserProfile.t xreal)) :
  0 <= o <= 100 ->
  exists s,
    totalRecommended
      (generateRebalancingRecommendations (RiskAssessment.mk (Fin o) t g m l ts)
         marketData userProfile) = Fin s
    /\ Rabs (s - 1) <= 1 / 10 ^ 9.
Proof.
  intros Ho.
  destruct (recommendations_normalized o t g m l ts marketData userProfile Ho)
    as [u [p [Hu [Hp [_ E]]]]].
  rewrite totalRecommended_map, E.
  cbn [fold_left of_Z number num_add add].
  eexists; split; [reflexivity |].
  replace (_ - 1) with 0 by (field; lra).
  rewrite Rabs_R0. apply Rlt_le, Rdiv_lt_0_compat; [lra | apply pow_lt; lra].
Qed.

Lemma rebalancing_weights_sum_to_one_witness :
  exists s,
    totalRecommended
      (generateRebalancingRecommendations
         (RiskAssessment.mk (Fin 50) (Fin 70) (Fin 10) (Fin 10) (Fin 10) (Fin 0))
         (MarketData.mk (Fin 0)) None) = Fin s
    /\ Rabs (s - 1) <= 1 / 10 ^ 9.
Proof.
  apply (rebalancing_weights_sum_to_one 50 (Fin 70) (Fin 10) (Fin 10) (Fin 10) (Fin 0)
           (MarketData.mk (Fin 0)) None).
  lra.
Defined.

(** C10: the output lists ETH, BTC, USDC and PROTOCOL_TOKEN in that
    order with current weights 0.4, 0.3, 0.2 and 0.1; before the
    normalization only the USDC and PROTOCOL_TOKEN weights differ from the
    current ones; and the recommended ETH and BTC weights are in the ratio
    4 : 3. *)
Theorem rebalancing_frame (o : R) (t g m l ts : xreal)
    (marketData : MarketData.t xreal) (userProfile : option (UserProfile.t xreal)) :
  0 <= o <= 100 ->
  let risk := RiskAssessment.mk (Fin o) t g m l ts in
  let recs := generateRebalancingRecommendations risk marketData userProfile in
  map Rebalancing.asset recs = ["ETH"; "BTC"; "USDC"; "PROTOCOL_TOKEN"]%string
  /\ map Rebalancing.currentWeight recs
     = [Fin (4 / 10); Fin (3 / 10); Fin (2 / 10); Fin (1 / 10)]
  /\ (exists u p,
        map Rebalancing.recommendedWeight (adjustedRecommendations risk userProfile)
        = [Fin (4 / 10); Fin (3 / 10); Fin u; Fin p])
  /\ (exists eth btc usdc token,
        map Rebalancing.recommendedWeight recs = [Fin eth; Fin btc; Fin usdc; Fin token]
        /\ btc <> 0 /\ eth / btc = 4 / 3).
Proof.
  intros Ho risk recs.
  destruct (rebalancing_assets risk marketData userProfile) as [Ha Hc].
  destruct (recommendations_normalized o t g m l ts marketData userProfile Ho)
    as [u [p [Hu [Hp [Eadj Erec]]]]].
  split; [exact Ha |]. split.
  - fold recs in Hc. rewrite Hc, !lit_exact. reflexivity.
  - split; [exists u, p; exact Eadj |].
    do 4 eexists. split; [exact Erec |]. split.
    + apply Rgt_not_eq. apply Rdiv_lt_0_compat; lra.
    + field. lra.
Qed.

Lemma rebalancing_frame_witness :
  let risk := RiskAssessment.mk (Fin 50) (Fin 70) (Fin 10) (Fin 10) (Fin 10) (Fin 0) in
  let recs := generateRebalancingRecommendations risk (MarketData.mk (Fin 0)) None in
  map Rebalancing.asset recs = ["ETH"; "BTC"; "USDC"; "PROTOCOL_TOKEN"]%string
  /\ map Rebalancing.currentWeight recs
     = [Fin (4 / 10); Fin (3 / 10); Fin (2 / 10); Fin (1 / 10)]
  /\ (exists u p,
        map Rebalancing.recommendedWeight (adjustedRecommendations risk None)
        = [Fin (4 / 10); Fin (3 / 10); Fin u; Fin p])
  /\ (exists eth btc usdc token,
        map Rebalancing.recommendedWeight recs = [Fin eth; Fin btc; Fin usdc; Fin token]
        /\ btc <> 0 /\ eth / btc = 4 / 3).
Proof.
  apply (rebalancing_frame 50 (Fin 70) (Fin 10) (Fin 10) (Fin 10) (Fin 0)
           (MarketData.mk (Fin 0)) None).
  lra.
Defined.

(** C7: for four risk components that are real numbers, in particular
    for components in [[0, 100]], the risk-consistency term (variance
    with the n denominator) lies in [[0.3, 1]]. *)
Theorem risk_consistency_bounded (t g m l : R) (o ts : xreal) :
  0 <= t <= 100 -> 0 <= g <= 100 -> 0 <= m <= 100 -> 0 <= l <= 100 ->
  exists c,
    calculateRiskConsistency
      (RiskAssessment.mk o (Fin t) (Fin g) (Fin m) (Fin l) ts) = Fin c
    /\ 3 / 10 <= c <= 1.
Proof.
  intros _ _ _ _.
  unfold calculateRiskConsistency.
  cbn [RiskAssessment.technical RiskAssessment.governance RiskAssessment.market
       RiskAssessment.liquidity fold_left len List.length Z.of_nat Pos.of_succ_nat
       Pos.succ of_Z number num_add num_sub num_div num_mul Math_pow Math_sqrt
       Math_max add sub opp pow Pos.to_nat Pos.iter_op Init.Nat.add].
  rewrite !div_Fin by lra. cbn [add sub opp pow].
  rewrite !div_Fin by lra.
  rewrite sqrt_Fin.
  2:{ apply Rmult_le_pos; [| lra].
      repeat apply Rplus_le_le_0_compat; try lra; apply pow2_ge_0. }
  rewrite div_Fin by lra. cbn [add opp]. rewrite lit_exact, max_Fin.
  eexists; split; [reflexivity |]. cbn [Qnum Qden].
  match goal with |- context [R_sqrt.sqrt ?v] => assert (Hs := sqrt_pos v) end.
  unfold Rmax; destruct (Rle_dec _ _); lra.
Qed.

Lemma risk_consistency_bounded_witness :
  exists c,
    calculateRiskConsistency
      (RiskAssessment.mk (Fin 50) (Fin 0) (Fin 100) (Fin 0) (Fin 100) (Fin 0)) = Fin c
    /\ 3 / 10 <= c <= 1.
Proof.
  apply (risk_consistency_bounded 0 100 0 100 (Fin 50) (Fin 0)); lra.
Defined.

End ExactRebalancing.

Section Binary64Samples.
Import Binary64 ExecutionGuidanceService.

(** Binary64 runs behind C5 and C10: for every integer overall risk from 0
    to 100, with the protocol token halved or not, the recommended weights
    add up to 1 within 1e-9 and the ETH and BTC weights are in the ratio
    4 : 3 within 1e-9. *)
Example rebalancing_binary64_samples :
  forallb
    (fun overall =>
       forallb
         (fun technical =>
            let recs :=
              generateRebalancingRecommendations (sampleRisk overall technical : RiskAssessment.t float)
                (MarketData.mk (of_Z 0)) None in
            within (totalRecommended recs) (of_Z 1) (lit (1 # 1000000000))
            && within (recommendedFor "ETH" recs / recommendedFor "BTC" recs)%num
                 (of_Z 4 / of_Z 3)%num (lit (1 # 1000000000)))
         [0; 61]%Z)
    percents = true.
Proof. vm_compute. reflexivity. Qed.

(** Binary64 runs behind C7: on the grid of risk vectors with components
    in 0, 10, ..., 100 the consistency term lies in [[0.3, 1]]. *)
Example risk_consistency_binary64_samples :
  let grid := map (fun k => (10 * Z.of_nat k)%Z) (seq 0 11) in
  forallb
    (fun t => forallb
       (fun g => forallb
          (fun m => forallb
             (fun l =>
                let c := calculateRiskConsistency
                           (RiskAssessment.mk (of_Z 0) (of_Z t) (of_Z g) (of_Z m) (of_Z l)
                              (of_Z 0) : RiskAssessment.t float) in
                (lit 0.3 <=? c)%num && (c <=? of_Z 1)%num)
             grid) grid) grid) grid = true.
Proof. vm_compute. reflexivity. Qed.

End Binary64Samples.

(* ================================================================= *)
(** * LiquidityPredictionService *)

Section LiquidityReads.
Import LiquidityPredictionService.
Context {N : Type} {num : Number N}.

(** The loop of [calculateTVLVolatility] runs over 1 <= i < length and
    reads [data[i]] and [data[i - 1]]: both are points of the array, so no
    property of [undefined] is read. *)
Lemma point_at_in_range (data : list (TVLPoint.t N)) (i : Z) :
  (1 <= i < len data)%Z ->
  point_at data i <> None /\ point_at data (i - 1) <> None.
Proof.
  unfold point_at, len. intros Hi.
  destruct (i <? 0)%Z eqn:E1; [apply Z.ltb_lt in E1; lia |].
  destruct (i - 1 <? 0)%Z eqn:E2; [apply Z.ltb_lt in E2; lia |].
  split; apply nth_error_Some; lia.
Qed.

End LiquidityReads.

Section Binary64Liquidity.
Import Binary64 Binary64Facts LiquidityPredictionService.

(** On binary64 the classifier compares the computed relative change
    with the two thresholds, and the three outcomes exclude each other. *)
Lemma determineFlowDirection_binary64 (predicted current : float) :
  let change := ((predicted - current) / current)%float in
  (determineFlowDirection predicted current = inflow
   <-> PrimFloat.ltb (lit 0.01) change = true)
  /\ (determineFlowDirection predicted current = outflow
      <-> PrimFloat.ltb change (- lit 0.01)%num = true)
  /\ (determineFlowDirection predicted current = stable
      <-> PrimFloat.ltb (lit 0.01) change = false
          /\ PrimFloat.ltb change (- lit 0.01)%num = false).
Proof.
  cbv zeta. unfold determineFlowDirection. cbv zeta.
  cbn [num_sub num_div num_ltb number].
  destruct (PrimFloat.ltb (lit 0.01) _) eqn:E1;
    destruct (PrimFloat.ltb _ (- lit 0.01)%num) eqn:E2;
    try (exfalso;
         apply (thresholds_exclusive ((predicted - current) / current)%float
                  (- lit 0.01)%num (lit 0.01));
         [reflexivity | assumption ..]);
    repeat split; intros; try discriminate; try reflexivity;
    try (destruct H; discriminate).
Qed.

(** On the empty history and on binary64, for every draw, clock and
    upgrade event: the current TVL is 0, each forecast is a zero or [NaN],
    and the direction is stable. *)
Lemma empty_history_binary64 (rand : nat -> float) (hourOfDay dayOfWeek : Z)
    (upgradeEvent : option (UpgradeEvent.t float)) :
  exists h d w c,
    predictLiquidityFlow rand hourOfDay dayOfWeek [] upgradeEvent
    = Resolved (LiquidityPrediction.mk 0%float h d w stable c)
    /\ zero_or_NaN h /\ zero_or_NaN d /\ zero_or_NaN w.
Proof.
  unfold predictLiquidityFlow, predictLiquidityFlow_try, try_catch.
  change (lastTVL []) with 0%float.
  unfold generateTVLPredictions. cbv zeta. cbn [h1 d1 d7 p_confidence].
  assert (Z0 : @zero_or_NaN float _ 0%float) by (right; reflexivity).
  match goal with
  | |- context [determineFlowDirection ?h 0%float] =>
      assert (Hh : zero_or_NaN h) by (do 3 apply mul_zero_or_NaN; exact Z0);
      set (forecast := h) in *
  end.
  do 4 eexists. split; [| split; [exact Hh | split]].
  - do 2 f_equal. unfold determineFlowDirection. cbv zeta.
    cbn [num_sub num_div num_ltb number]. rewrite (change_from_zero forecast Hh).
    reflexivity.
  - do 3 apply mul_zero_or_NaN; exact Z0.
  - do 3 apply mul_zero_or_NaN; exact Z0.
Qed.

End Binary64Liquidity.

Section ExactLiquidity.
Import Exact ExactFacts LiquidityPredictionService.
Local Open Scope R_scope.

Lemma truthy_Fin (a : R) : a <> 0 -> truthy (Fin a) = true.
Proof.
  intros Ha. unfold truthy, isNaN; simpl. unfold eqb; simpl.
  rewrite (Rcmp_eq a a eq_refl).
  destruct (Rcmp_cases a 0) as [[_ ->] | [[H _] | [_ ->]]];
    [reflexivity | contradiction | reflexivity].
Qed.

Lemma relative_change (p c : R) :
  c <> 0 -> ((Fin p - Fin c) / Fin c)%num = Fin ((p - c) / c).
Proof.
  intros Hc. cbn [num_sub num_div number sub opp add].
  rewrite div_Fin by assumption. reflexivity.
Qed.

Lemma determineFlowDirection_Fin (p c : R) :
  c <> 0 ->
  determineFlowDirection (Fin p) (Fin c)
  = if ltb (Fin (1 / 100)) (Fin ((p - c) / c)) then inflow
    else if ltb (Fin ((p - c) / c)) (Fin (- (1 / 100))) then outflow
    else stable.
Proof.
  intros Hc. unfold determineFlowDirection. cbv zeta.
  rewrite (relative_change p c Hc), lit_exact. reflexivity.
Qed.

(** C8: with a positive current TVL the direction is inflow exactly when
    the relative change exceeds 1%, outflow exactly when it is below -1%,
    and stable otherwise (first in exact arithmetic, then on binary64 with
    the relative change as the program computes it); the three worked
    cases are as listed in both readings. *)
Theorem flow_direction_classification :
  (forall p c : R,
      0 < c ->
      (determineFlowDirection (Fin p) (Fin c) = inflow <-> (p - c) / c > 1 / 100)
      /\ (determineFlowDirection (Fin p) (Fin c) = outflow <-> (p - c) / c < - (1 / 100))
      /\ (determineFlowDirection (Fin p) (Fin c) = stable
          <-> - (1 / 100) <= (p - c) / c <= 1 / 100))
  /\ (forall predicted current : float,
         let change := ((predicted - current) / current)%float in
         (determineFlowDirection predicted current = inflow
          <-> PrimFloat.ltb (lit 0.01) change = true)
         /\ (determineFlowDirection predicted current = outflow
             <-> PrimFloat.ltb change (- lit 0.01)%num = true)
         /\ (determineFlowDirection predicted current = stable
             <-> PrimFloat.ltb (lit 0.01) change = false
                 /\ PrimFloat.ltb change (- lit 0.01)%num = false))
  /\ (determineFlowDirection (Fin 1011) (Fin 1000) = inflow
      /\ determineFlowDirection (Fin 989) (Fin 1000) = outflow
      /\ determineFlowDirection (Fin 1005) (Fin 1000) = stable)
  /\ (determineFlowDirection 1011%float 1000%float = inflow
      /\ determineFlowDirection 989%float 1000%float = outflow
      /\ determineFlowDirection 1005%float 1000%float = stable).
Proof.
  assert (G : forall p c : R,
             0 < c ->
             (determineFlowDirection (Fin p) (Fin c) = inflow <-> (p - c) / c > 1 / 100)
             /\ (determineFlowDirection (Fin p) (Fin c) = outflow
                 <-> (p - c) / c < - (1 / 100))
             /\ (determineFlowDirection (Fin p) (Fin c) = stable
                 <-> - (1 / 100) <= (p - c) / c <= 1 / 100)).
  { intros p c Hc. rewrite determineFlowDirection_Fin by lra.
    set (x := (p - c) / c).
    destruct (ltb (Fin (1 / 100)) (Fin x)) eqn:E1.
    - apply ltb_Fin in E1.
      repeat split; intros; try discriminate; try reflexivity; lra.
    - apply ltb_Fin_false in E1.
      destruct (ltb (Fin x) (Fin (- (1 / 100)))) eqn:E2.
      + apply ltb_Fin in E2.
        repeat split; intros; try discriminate; try reflexivity; lra.
      + apply ltb_Fin_false in E2.
        repeat split; intros; try discriminate; try reflexivity; lra. }
  split; [exact G |]. split; [exact determineFlowDirection_binary64 |]. split.
  - repeat split.
    + apply (G 1011 1000); lra.
    + apply (G 989 1000); lra.
    + apply (G 1005 1000); lra.
  - repeat split; vm_compute; reflexivity.
Qed.

Lemma flow_direction_classification_witness :
  determineFlowDirection (Fin 1011) (Fin 1000) = inflow.
Proof.
  apply (proj1 (proj1 flow_direction_classification 1011 1000 ltac:(lra))).
  lra.
Defined.


(** ** The empty history *)

Lemma calculateSeasonality_Fin (hourOfDay dayOfWeek : Z) (data : list (TVLPoint.t xreal)) :
  exists s, calculateSeasonality hourOfDay dayOfWeek data = Fin s.
Proof.
  unfold calculateSeasonality.
  destruct (_ && _)%bool; destruct (_ && _)%bool; rewrite !lit_exact;
    eexists; reflexivity.
Qed.

Lemma calculateEventImpact_Fin (type : UpgradeType) (riskScore : R) :
  exists e, calculateEventImpact (UpgradeEvent.mk type (Fin riskScore)) = Fin e.
Proof.
  unfold calculateEventImpact, typeMultipliers.
  cbn [UpgradeEvent.type UpgradeEvent.riskScore]. cbv zeta.
  destruct type; rewrite !lit_exact; cbn [Qnum Qden];
    rewrite truthy_Fin by lra;
    cbn [of_Z number num_sub num_mul num_div]; rewrite div_Fin by lra;
    eexists; reflexivity.
Qed.

(** With a current TVL of 0 every forecast is 0, whatever the draws. *)
Lemma generateTVLPredictions_zero (u : nat -> R) (trend s e : R) :
  exists c,
    generateTVLPredictions (fun k => Fin (u k)) (Fin 0) (Fin trend) (Fin s) (lit 0.01) (Fin e)
    = mk_predictions (Fin 0) (Fin 0) (Fin 0) (Fin c).
Proof.
  unfold generateTVLPredictions. cbv zeta. rewrite !lit_exact.
  cbn [Qnum Qden of_Z number num_add num_sub num_mul num_div Math_sqrt Math_max].
  rewrite !div_Fin by lra. cbn [mul add sub opp].
  rewrite ?div_Fin by lra. rewrite !sqrt_Fin by lra. cbn [mul add sub opp].
  rewrite max_Fin.
  eexists. f_equal; f_equal; ring.
Qed.

(** C9: on the empty history nothing fails.  In exact arithmetic the
    current TVL and the three forecasts are 0 and the direction is stable,
    for every draw of the random source, every clock, and with or without
    an upgrade event of finite risk score; the relative change that the
    classifier computes is 0/0, which is [NaN] and passes neither
    threshold.  On binary64, for every draw, clock and event, the current
    TVL is 0, the direction is stable, and each forecast is a zero or
    [NaN]; a run with draws of 0.25 gives 0 for all three. *)
Theorem empty_history_is_stable :
  (forall (u : nat -> R) (hourOfDay dayOfWeek : Z) (event : option (UpgradeType * R)),
      let upgradeEvent :=
        option_map (fun e => UpgradeEvent.mk (fst e) (Fin (snd e))) event in
      exists c,
        predictLiquidityFlow (fun k => Fin (u k)) hourOfDay dayOfWeek [] upgradeEvent
        = Resolved (LiquidityPrediction.mk (Fin 0) (Fin 0) (Fin 0) (Fin 0) stable (Fin c)))
  /\ ((Fin 0 - Fin 0) / Fin 0)%num = XNaN
  /\ (forall (rand : nat -> float) (hourOfDay dayOfWeek : Z)
             (upgradeEvent : option (UpgradeEvent.t float)),
         exists h d w c,
           predictLiquidityFlow rand hourOfDay dayOfWeek [] upgradeEvent
           = Resolved (LiquidityPrediction.mk 0%float h d w stable c)
           /\ zero_or_NaN h /\ zero_or_NaN d /\ zero_or_NaN w)
  /\ predictLiquidityFlow (fun _ => 0.25%float) 10 3 [] None
     = Resolved (LiquidityPrediction.mk 0%float 0%float 0%float 0%float stable (lit 0.9)).
Proof.
  split; [| split; [| split]].
  - intros u hourOfDay dayOfWeek event. cbv zeta.
    unfold predictLiquidityFlow, predictLiquidityFlow_try, try_catch.
    destruct (calculateSeasonality_Fin hourOfDay dayOfWeek []) as [s ->].
    assert (He : exists e,
               match option_map (fun e => UpgradeEvent.mk (fst e) (Fin (snd e))) event with
               | Some ev => calculateEventImpact ev
               | None => of_Z 1
               end = Fin e).
    { destruct event as [[ty rs] |]; simpl option_map.
      - apply calculateEventImpact_Fin.
      - eexists; reflexivity. }
    destruct He as [e ->].
    change (lastTVL []) with (Fin 0).
    change (calculateTrend []) with (Fin 0).
    change (calculateTVLVolatility []) with (@lit xreal _ 0.01).
    destruct (generateTVLPredictions_zero u 0 s e) as [c ->].
    exists c. cbn [h1 d1 d7 p_confidence]. do 2 f_equal.
    unfold determineFlowDirection. cbv zeta.
    cbn [num_sub num_div number sub opp add div].
    rewrite (Rcmp_eq 0 0 eq_refl), (Rcmp_eq (0 + - 0) 0) by lra.
    rewrite lit_exact. reflexivity.
  - cbn [num_sub num_div number sub opp add div].
    rewrite (Rcmp_eq 0 0 eq_refl), (Rcmp_eq (0 + - 0) 0) by lra. reflexivity.
  - exact empty_history_binary64.
  - vm_compute. reflexivity.
Qed.

End ExactLiquidity.

(* ================================================================= *)
(** * VolatilityModelingService in exact arithmetic: flat price series *)

Section ArrayFacts.
Context {N : Type} {num : Number N}.



End ArrayFacts.

Section ExactFlatSeries.
Import Exact ExactFacts VolatilityModelingService.
Local Open Scope R_scope.








End ExactFlatSeries.

(* ================================================================= *)
(** * Further properties of the volatility model *)

Section ReturnsShape.
Import VolatilityModelingService.
Context {N : Type} {num : Number N}.
Local Open Scope num_scope.

Lemma for_steps_push_ext (f g : Z -> N) (n : nat) (i j : Z) (acc : list N) :
  (forall k, (0 <= k < Z.of_nat n)%Z -> f (i + k)%Z = g (j + k)%Z) ->
  for_steps n i (fun x returns => returns ++ [f x]) acc
  = for_steps n j (fun x returns => returns ++ [g x]) acc.
Proof.
  revert i j acc. induction n as [| n IH]; intros i j acc H; [reflexivity |].
  simpl. replace (f i) with (g j).
  - apply IH. intros k Hk.
    replace (i + 1 + k)%Z with (i + (k + 1))%Z by lia.
    replace (j + 1 + k)%Z with (j + (k + 1))%Z by lia.
    apply H. lia.
  - symmetry. replace i with (i + 0)%Z at 1 by lia.
    replace j with (j + 0)%Z at 1 by lia. apply H. lia.
Qed.

Lemma for_steps_push_acc (f : Z -> N) (n : nat) (i : Z) (acc : list N) :
  for_steps n i (fun x returns => returns ++ [f x]) acc
  = acc ++ for_steps n i (fun x returns => returns ++ [f x]) [].
Proof.
  revert i acc. induction n as [| n IH]; intros i acc.
  - simpl. now rewrite app_nil_r.
  - simpl. rewrite (IH (i + 1)%Z (acc ++ [f i])), (IH (i + 1)%Z [f i]).
    now rewrite <- app_assoc.
Qed.

Lemma get_cons (x : N) (l : list N) (i : Z) :
  (0 <= i)%Z -> get (x :: l) (i + 1) = get l i.
Proof.
  intros Hi. unfold get.
  destruct (i + 1 <? 0)%Z eqn:E1; [apply Z.ltb_lt in E1; lia |].
  destruct (i <? 0)%Z eqn:E2; [apply Z.ltb_lt in E2; lia |].
  replace (Z.to_nat (i + 1)) with (S (Z.to_nat i)) by lia. reflexivity.
Qed.

(** The returns of a history are the log-ratio of its first two prices
    followed by the returns of the history without its first price. *)
Lemma calculateReturns_cons (p q : N) (prices : list N) :
  calculateReturns (p :: q :: prices)
  = Math_log (q / p) :: calculateReturns (q :: prices).
Proof.
  unfold calculateReturns, for_loop, len.
  cbn [List.length].
  replace (Z.to_nat (Z.of_nat (S (S (List.length prices))) - 1))
    with (S (List.length prices)) by lia.
  replace (Z.to_nat (Z.of_nat (S (List.length prices)) - 1))
    with (List.length prices) by lia.
  cbn [for_steps app]. rewrite for_steps_push_acc. cbn [app]. f_equal.
  apply for_steps_push_ext. intros k Hk.
  rewrite <- (get_cons p (q :: prices) (1 + k)) by lia.
  rewrite <- (get_cons p (q :: prices) (1 + k - 1)) by lia.
  do 3 f_equal; lia.
Qed.

(** X4: a history of n >= 1 prices has n - 1 returns (and the empty
    history none), and the i-th return is the logarithm of the ratio of
    the prices at i + 1 and i. *)
Theorem calculateReturns_shape (prices : list N) :
  List.length (calculateReturns prices) = (List.length prices - 1)%nat
  /\ forall i, (i < List.length prices - 1)%nat ->
       nth i (calculateReturns prices) NaN
       = Math_log (nth (S i) prices NaN / nth i prices NaN).
Proof.
  induction prices as [| p [| q l] IH].
  - split; [reflexivity | intros i Hi; simpl in Hi; lia].
  - split; [reflexivity | intros i Hi; simpl in Hi; lia].
  - rewrite calculateReturns_cons. destruct IH as [IHlen IHnth]. split.
    + cbn [List.length]. rewrite IHlen. cbn [List.length]. lia.
    + intros [| i] Hi; [reflexivity |].
      cbn [nth]. rewrite IHnth; [reflexivity |]. cbn [List.length] in *. lia.
Qed.

End ReturnsShape.

Section ExactSeries.
Import Exact ExactFacts VolatilityModelingService.
Local Open Scope R_scope.









End ExactSeries.

Section ExactTwoPoints.
Import Exact ExactFacts VolatilityModelingService.
Local Open Scope R_scope.

(** The sample variance of a single value divides by zero: it is [NaN]
    for every value, finite or not. *)
Lemma calculateVariance_single (r : xreal) : calculateVariance [r] = XNaN.
Proof.
  unfold calculateVariance, len. cbv zeta.
  cbn [List.length Z.of_nat Pos.of_succ_nat Z.sub Z.add Z.opp Z.pos_sub fold_left
       of_Z number num_add num_sub num_div Math_pow].
  destruct r as [x | | |]; cbn [add sub opp div pow];
    rewrite ?(Rcmp_gt 1 0) by lra; cbn [add sub opp div pow];
    try reflexivity.
  rewrite (Rcmp_eq 0 0 eq_refl). cbn [add sub opp div pow].
  rewrite Rcmp_eq; [reflexivity |].
  change (Pos.to_nat 2) with 2%nat. field.
Qed.

Lemma calculateCurrentVolatility_single (r : xreal) :
  calculateCurrentVolatility [r] = XNaN.
Proof.
  unfold calculateCurrentVolatility. cbv zeta. rewrite calculateVariance_single.
  match goal with
  | |- Math_sqrt ?loop = _ => assert (E : loop = XNaN)
  end.
  { apply (for_loop_invariant (fun s => s = XNaN)); [reflexivity |].
    intros i s Hi ->. destruct (i >=? 0)%Z; [| reflexivity].
    rewrite lit_exact. reflexivity. }
  rewrite E. reflexivity.
Qed.

(** With a single return the gradient loop does not run: alpha and beta
    stay at their seeds and omega stays [NaN]. *)
Lemma fitGARCH_single (r : xreal) :
  fitGARCH [r] = GarchParams.mk (Fin (1 / 10)) (Fin (85 / 100)) XNaN.
Proof.
  unfold fitGARCH. cbv zeta. rewrite calculateVariance_single.
  apply (for_loop_invariant
           (fun p => p = GarchParams.mk (Fin (1 / 10)) (Fin (85 / 100)) XNaN)).
  - rewrite !lit_exact. reflexivity.
  - intros i p Hi ->. unfold optimizeGARCH, calculateGARCHGradient, for_loop, len.
    cbv zeta. rewrite !lit_exact.
    cbn [List.length Z.of_nat Pos.of_succ_nat Z.sub Z.add Z.opp Z.pos_sub Z.to_nat
         for_steps gradAlpha gradBeta gradOmega variance
         GarchParams.alpha GarchParams.beta GarchParams.omega
         Qnum Qden of_Z number num_add num_sub num_mul num_div num_opp
         Math_max Math_min opp].
    rewrite !div_Fin by lra. cbn [mul sub add opp].
    rewrite !min_Fin, !max_Fin. cbn [max compare].
    f_equal; f_equal.
    + rewrite Rmin_right by lra. rewrite Rmax_right by lra. field.
    + rewrite Rmin_right by lra. rewrite Rmax_right by lra. field.
Qed.

(** X6: every price history of exactly two points, whatever the two
    values, resolves to a prediction whose current volatility, forecasts
    and omega are [NaN], while alpha and beta are the seeds and the
    confidence is 1 (exact arithmetic). *)
Theorem two_point_history_is_NaN (rand : nat -> xreal) (p q : xreal)
    (upgradeEvent : option (UpgradeEvent.t xreal)) :
  predictVolatility rand [p; q] upgradeEvent
  = Resolved (VolatilityPrediction.mk XNaN XNaN XNaN XNaN (Fin 1)
                (GarchParams.mk (Fin (1 / 10)) (Fin (85 / 100)) XNaN)).
Proof.
  unfold predictVolatility, predictVolatility_try, try_catch.
  rewrite calculateReturns_cons.
  change (calculateReturns [q]) with (@nil xreal).
  rewrite fitGARCH_single, calculateCurrentVolatility_single.
  unfold generateVolatilityPredictions. cbv zeta.
  cbn [h1 d1 d7 p_confidence GarchParams.alpha GarchParams.beta GarchParams.omega].
  rewrite !lit_exact.
  do 2 f_equal.
  cbn [Qnum Qden of_Z number num_add num_sub Math_abs Math_max add sub opp abs].
  rewrite max_Fin. f_equal.
  replace (1 / 10 + 85 / 100 + - (95 / 100)) with 0 by lra.
  rewrite Rabs_R0. rewrite Rmax_right by lra. lra.
Qed.

End ExactTwoPoints.

Section ForecastShape.
Import Exact ExactFacts VolatilityModelingService.
Local Open Scope R_scope.

Lemma mul_one_r (x : xreal) : mul x (Fin 1) = x.
Proof.
  destruct x as [r | | |]; cbn [mul sign]; rewrite ?(Rcmp_gt 1 0) by lra;
    try reflexivity.
  f_equal. ring.
Qed.

(** X7: the confidence of a volatility forecast.  In exact arithmetic,
    for finite alpha and beta it is a number in [[0.5, 1]] that equals
    1 - |alpha + beta - 0.95| when that is at least 0.5, so it does not
    increase as alpha + beta moves away from 0.95; it depends on nothing
    else.  On binary64, for every input, it is [NaN] or at least 0.5. *)
Theorem volatility_confidence_shape :
  (forall (a b : R) (current omega : xreal) (upgradeEvent : option (UpgradeEvent.t xreal)),
      p_confidence (generateVolatilityPredictions current
                      (GarchParams.mk (Fin a) (Fin b) omega) upgradeEvent)
      = Fin (Rmax (1 / 2) (1 - Rabs (a + b - 95 / 100))))
  /\ (forall a b : R, 1 / 2 <= Rmax (1 / 2) (1 - Rabs (a + b - 95 / 100)) <= 1)
  /\ (forall a b a' b' : R,
         Rabs (a + b - 95 / 100) <= Rabs (a' + b' - 95 / 100) ->
         Rmax (1 / 2) (1 - Rabs (a' + b' - 95 / 100))
         <= Rmax (1 / 2) (1 - Rabs (a + b - 95 / 100)))
  /\ (forall (current : float) (params : GarchParams.t float)
             (upgradeEvent : option (UpgradeEvent.t float)),
         nan_or_at_least (lit 0.5)
           (p_confidence (generateVolatilityPredictions current params upgradeEvent))).
Proof.
  split; [| split; [| split]].
  - intros a b current omega upgradeEvent.
    unfold generateVolatilityPredictions. cbv zeta.
    cbn [p_confidence GarchParams.alpha GarchParams.beta GarchParams.omega].
    rewrite !lit_exact.
    cbn [Qnum Qden of_Z number num_add num_sub Math_abs Math_max add sub opp abs].
    rewrite max_Fin. f_equal. f_equal; try reflexivity; lra.
  - intros a b. assert (H := Rabs_pos (a + b - 95 / 100)).
    unfold Rmax; destruct (Rle_dec _ _); lra.
  - intros a b a' b' H.
    unfold Rmax; repeat destruct (Rle_dec _ _); lra.
  - intros current params upgradeEvent.
    unfold generateVolatilityPredictions. cbv zeta. cbn [p_confidence].
    apply floor_at_least. reflexivity.
Qed.

(** X8: an upgrade event with a risk score between 0 and 100 multiplies
    each of the three forecasts by the same factor, which lies in
    [[1, 1.5]], and leaves the confidence as it is (exact arithmetic). *)
Theorem upgrade_event_scales_forecasts (current : xreal) (params : GarchParams.t xreal)
    (type : UpgradeType) (riskScore : R) :
  0 <= riskScore <= 100 ->
  let scaled :=
    generateVolatilityPredictions current params
      (Some (UpgradeEvent.mk type (Fin riskScore))) in
  let plain := generateVolatilityPredictions current params None in
  exists m,
    1 <= m <= 3 / 2
    /\ h1 scaled = (h1 plain * Fin m)%num
    /\ d1 scaled = (d1 plain * Fin m)%num
    /\ d7 scaled = (d7 plain * Fin m)%num
    /\ p_confidence scaled = p_confidence plain.
Proof.
  intros Hr. cbv zeta. unfold generateVolatilityPredictions, eventMultiplier. cbv zeta.
  cbn [h1 d1 d7 p_confidence UpgradeEvent.riskScore].
  rewrite (lit_exact 0.5).
  cbn [Qnum Qden of_Z number num_add num_mul num_div].
  rewrite div_Fin by lra. cbn [mul add].
  rewrite !mul_one_r.
  eexists. split; [| repeat split; reflexivity]. lra.
Qed.

Lemma upgrade_event_scales_forecasts_witness :
  exists m,
    1 <= m <= 3 / 2
    /\ h1 (generateVolatilityPredictions (Fin 0)
             (GarchParams.mk (Fin (1 / 10)) (Fin (85 / 100)) (Fin 1))
             (Some (UpgradeEvent.mk governance (Fin 50))))
       = (h1 (generateVolatilityPredictions (Fin 0)
                (GarchParams.mk (Fin (1 / 10)) (Fin (85 / 100)) (Fin 1)) None)
          * Fin m)%num.
Proof.
  destruct (upgrade_event_scales_forecasts (Fin 0)
              (GarchParams.mk (Fin (1 / 10)) (Fin (85 / 100)) (Fin 1))
              governance 50 ltac:(lra)) as [m [Hm [H _]]].
  exists m. split; assumption.
Defined.

End ForecastShape.

Section ExactMeanReversion.
Import Exact ExactFacts VolatilityModelingService.
Local Open Scope R_scope.




End ExactMeanReversion.

Section LoopsAsFolds.
Context {N : Type} {num : Number N} {S : Type}.

Lemma for_steps_ext (n : nat) (i : Z) (f g : Z -> S -> S) (s : S) :
  (forall j s', (i <= j < i + Z.of_nat n)%Z -> f j s' = g j s') ->
  for_steps n i f s = for_steps n i g s.
Proof.
  revert i s. induction n as [| n IH]; intros i s H; [reflexivity |].
  simpl. rewrite H by lia. apply IH. intros j s' Hj. apply H. lia.
Qed.



End LoopsAsFolds.

Section Autocorrelation.
Import Exact ExactFacts VolatilityModelingService.
Local Open Scope R_scope.







End Autocorrelation.

(* ================================================================= *)
(** * Further properties of the liquidity model *)

Section TimestampsIgnored.
Import LiquidityPredictionService.
Context {N : Type} {num : Number N}.
Local Open Scope num_scope.

Lemma reduce_from_tvl (f : N -> N -> Z -> N) (data data' : list (TVLPoint.t N))
    (i : Z) (acc : N) :
  map TVLPoint.tvl data = map TVLPoint.tvl data' ->
  reduce_from i (fun sum d j => f sum (TVLPoint.tvl d) j) data acc
  = reduce_from i (fun sum d j => f sum (TVLPoint.tvl d) j) data' acc.
Proof.
  revert data' i acc. induction data as [| d data IH]; intros [| d' data'] i acc H;
    try discriminate; [reflexivity |].
  simpl in H. injection H as Hd Hrest. simpl. rewrite Hd. now apply IH.
Qed.

Lemma tvl_at_tvl (data data' : list (TVLPoint.t N)) (i : Z) :
  map TVLPoint.tvl data = map TVLPoint.tvl data' -> tvl_at data i = tvl_at data' i.
Proof.
  intros H. unfold tvl_at, point_at. destruct (i <? 0)%Z; [reflexivity |].
  assert (E : option_map TVLPoint.tvl (nth_error data (Z.to_nat i))
              = option_map TVLPoint.tvl (nth_error data' (Z.to_nat i))).
  { rewrite <- !nth_error_map. now rewrite H. }
  destruct (nth_error data (Z.to_nat i)), (nth_error data' (Z.to_nat i));
    simpl in E; congruence.
Qed.

Lemma len_tvl (data data' : list (TVLPoint.t N)) :
  map TVLPoint.tvl data = map TVLPoint.tvl data' -> len data = len data'.
Proof.
  intros H. unfold len. f_equal.
  rewrite <- (length_map TVLPoint.tvl data), <- (length_map TVLPoint.tvl data').
  now rewrite H.
Qed.

Lemma lastTVL_tvl (data data' : list (TVLPoint.t N)) :
  map TVLPoint.tvl data = map TVLPoint.tvl data' -> lastTVL data = lastTVL data'.
Proof.
  intros H. unfold lastTVL. rewrite (len_tvl data data' H).
  assert (E := tvl_at_tvl data data' (len data' - 1) H). unfold tvl_at in E.
  assert (L := len_tvl data data' H). unfold len in L.
  destruct (point_at data (len data' - 1)) as [p |] eqn:E1,
           (point_at data' (len data' - 1)) as [p' |] eqn:E2.
  - now rewrite E.
  - exfalso. unfold point_at in E1, E2.
    destruct (len data' - 1 <? 0)%Z; [discriminate |].
    apply nth_error_None in E2.
    assert (Hn : nth_error data (Z.to_nat (len data' - 1)) <> None) by congruence.
    apply nth_error_Some in Hn. lia.
  - exfalso. unfold point_at in E1, E2.
    destruct (len data' - 1 <? 0)%Z; [discriminate |].
    apply nth_error_None in E1.
    assert (Hn : nth_error data' (Z.to_nat (len data' - 1)) <> None) by congruence.
    apply nth_error_Some in Hn. lia.
  - reflexivity.
Qed.

Lemma calculateTrend_tvl (data data' : list (TVLPoint.t N)) :
  map TVLPoint.tvl data = map TVLPoint.tvl data' ->
  calculateTrend data = calculateTrend data'.
Proof.
  intros H. unfold calculateTrend, reduce. rewrite (len_tvl data data' H).
  destruct (len data' <? 2)%Z; [reflexivity |]. cbv zeta.
  rewrite (reduce_from_tvl (fun sum _ i => sum + of_Z i) data data' 0 (of_Z 0) H).
  rewrite (reduce_from_tvl (fun sum v _ => sum + v) data data' 0 (of_Z 0) H).
  rewrite (reduce_from_tvl (fun sum v i => sum + of_Z i * v) data data' 0 (of_Z 0) H).
  rewrite (reduce_from_tvl (fun sum _ i => sum + of_Z i * of_Z i) data data' 0 (of_Z 0) H).
  reflexivity.
Qed.

Lemma calculateTVLVolatility_tvl (data data' : list (TVLPoint.t N)) :
  map TVLPoint.tvl data = map TVLPoint.tvl data' ->
  calculateTVLVolatility data = calculateTVLVolatility data'.
Proof.
  intros H. unfold calculateTVLVolatility. rewrite (len_tvl data data' H).
  destruct (len data' <? 2)%Z; [reflexivity |].
  unfold for_loop.
  rewrite (for_steps_ext _ _ _
             (fun i returns =>
                returns ++ [(tvl_at data' i - tvl_at data' (i - 1)) / tvl_at data' (i - 1)]));
    [reflexivity |].
  intros j s' _. now rewrite !(tvl_at_tvl data data' _ H).
Qed.

(** X10: the liquidity forecast reads the TVL values only: two histories
    with the same values in the same order give the same prediction,
    whatever their timestamps (at every instance of the arithmetic). *)
Theorem liquidity_ignores_timestamps (rand : nat -> N) (hourOfDay dayOfWeek : Z)
    (data data' : list (TVLPoint.t N)) (upgradeEvent : option (UpgradeEvent.t N)) :
  map TVLPoint.tvl data = map TVLPoint.tvl data' ->
  predictLiquidityFlow rand hourOfDay dayOfWeek data upgradeEvent
  = predictLiquidityFlow rand hourOfDay dayOfWeek data' upgradeEvent.
Proof.
  intros H. unfold predictLiquidityFlow, predictLiquidityFlow_try.
  rewrite (lastTVL_tvl data data' H), (calculateTrend_tvl data data' H),
    (calculateTVLVolatility_tvl data data' H).
  reflexivity.
Qed.

End TimestampsIgnored.

Lemma liquidity_ignores_timestamps_witness :
  LiquidityPredictionService.predictLiquidityFlow (fun _ => 0.25%float) 10 3
    [TVLPoint.mk 1%float 1000%float; TVLPoint.mk 2%float 1010%float;
     TVLPoint.mk 3%float 1030%float] None
  = LiquidityPredictionService.predictLiquidityFlow (fun _ => 0.25%float) 10 3
      [TVLPoint.mk 10%float 1000%float; TVLPoint.mk 500%float 1010%float;
       TVLPoint.mk 501%float 1030%float] None.
Proof.
  apply (liquidity_ignores_timestamps (fun _ => 0.25%float) 10 3
           [TVLPoint.mk 1%float 1000%float; TVLPoint.mk 2%float 1010%float;
            TVLPoint.mk 3%float 1030%float]
           [TVLPoint.mk 10%float 1000%float; TVLPoint.mk 500%float 1010%float;
            TVLPoint.mk 501%float 1030%float] None).
  reflexivity.
Defined.

Section ExactTrend.
Import Exact ExactFacts LiquidityPredictionService.
Local Open Scope R_scope.











End ExactTrend.

Section ExactTVLForecast.
Import Exact ExactFacts VolatilityModelingService LiquidityPredictionService.
Local Open Scope R_scope.

Lemma mul_XNaN_r (x : xreal) : mul x XNaN = XNaN.
Proof. destruct x; cbn [mul sign]; try reflexivity; now destruct (Rcmp r 0). Qed.

Lemma mul_XNaN_l (x : xreal) : mul XNaN x = XNaN.
Proof. reflexivity. Qed.

Lemma add_XNaN_r (x : xreal) : add x XNaN = XNaN.
Proof. now destruct x. Qed.

(** The volatility of a TVL history of two points is the square root of
    the sample variance of a single relative change. *)
Lemma calculateTVLVolatility_two (p q : TVLPoint.t xreal) :
  calculateTVLVolatility [p; q] = XNaN.
Proof.
  change (calculateTVLVolatility [p; q])
    with (Math_sqrt
            (calculateVariance
               [((TVLPoint.tvl q - TVLPoint.tvl p) / TVLPoint.tvl p)%num])).
  rewrite calculateVariance_single. reflexivity.
Qed.

(** X12: a TVL history of exactly two points, whatever its values,
    resolves to a prediction whose three forecasts and confidence are
    [NaN] and whose direction is stable: the volatility of a single
    relative change is 0/0 (exact arithmetic, every draw, clock and
    event). *)
Theorem two_point_tvl_history_is_NaN (rand : nat -> xreal) (hourOfDay dayOfWeek : Z)
    (p q : TVLPoint.t xreal) (upgradeEvent : option (UpgradeEvent.t xreal)) :
  predictLiquidityFlow rand hourOfDay dayOfWeek [p; q] upgradeEvent
  = Resolved (LiquidityPrediction.mk (lastTVL [p; q]) XNaN XNaN XNaN stable XNaN).
Proof.
  unfold predictLiquidityFlow, predictLiquidityFlow_try, try_catch.
  rewrite calculateTVLVolatility_two.
  unfold generateTVLPredictions. cbv zeta.
  cbn [LiquidityPredictionService.h1 LiquidityPredictionService.d1
       LiquidityPredictionService.d7 LiquidityPredictionService.p_confidence].
  cbn [num_add num_sub num_mul number Math_max].
  rewrite !mul_XNaN_r, !mul_XNaN_l, !add_XNaN_r, !mul_XNaN_r, !mul_XNaN_l.
  unfold determineFlowDirection. cbv zeta. rewrite !lit_exact. reflexivity.
Qed.

Lemma sqrt_range (x : xreal) :
  sqrt x = XNaN \/ sqrt x = PInf \/ exists v, 0 <= v /\ sqrt x = Fin v.
Proof.
  destruct x as [r | | |]; cbn [sqrt]; auto.
  destruct (Rcmp r 0); auto; right; right; eexists; (split; [apply sqrt_pos | reflexivity]).
Qed.

Lemma calculateTVLVolatility_range (data : list (TVLPoint.t xreal)) :
  calculateTVLVolatility data = XNaN \/ calculateTVLVolatility data = PInf
  \/ exists v, 0 <= v /\ calculateTVLVolatility data = Fin v.
Proof.
  unfold calculateTVLVolatility. destruct (len data <? 2)%Z.
  - right; right. exists (1 / 100). split; [lra |]. now rewrite lit_exact.
  - cbv zeta. apply sqrt_range.
Qed.

(** X13: the confidence of a liquidity forecast.  In exact arithmetic,
    for every history, draw, clock and event it is [NaN] or a number in
    [[0.4, 1]]; on binary64 it is [NaN] or at least 0.4. *)
Theorem liquidity_confidence_bounded :
  (forall (rand : nat -> xreal) (hourOfDay dayOfWeek : Z)
          (historicalTVL : list (TVLPoint.t xreal))
          (upgradeEvent : option (UpgradeEvent.t xreal)),
      exists v,
        predictLiquidityFlow rand hourOfDay dayOfWeek historicalTVL upgradeEvent
        = Resolved v
        /\ (LiquidityPrediction.confidence v = XNaN
            \/ exists c, LiquidityPrediction.confidence v = Fin c /\ 2 / 5 <= c <= 1))
  /\ (forall (rand : nat -> float) (hourOfDay dayOfWeek : Z)
             (historicalTVL : list (TVLPoint.t float))
             (upgradeEvent : option (UpgradeEvent.t float)),
         exists v,
           predictLiquidityFlow rand hourOfDay dayOfWeek historicalTVL upgradeEvent
           = Resolved v
           /\ nan_or_at_least (lit 0.4) (LiquidityPrediction.confidence v)).
Proof.
  split.
  - intros rand hourOfDay dayOfWeek historicalTVL upgradeEvent.
    unfold predictLiquidityFlow, predictLiquidityFlow_try, try_catch.
    eexists. split; [reflexivity |].
    cbn [LiquidityPrediction.confidence].
    unfold generateTVLPredictions. cbv zeta.
    cbn [LiquidityPredictionService.p_confidence].
    rewrite lit_exact. cbn [Qnum Qden of_Z number num_sub num_mul Math_max].
    destruct (calculateTVLVolatility_range historicalTVL) as [-> | [-> | [v [Hv ->]]]].
    + left. reflexivity.
    + right. exists (2 / 5). split; [| lra].
      cbn [mul sign]. rewrite (Rcmp_gt 10 0) by lra. cbn [sign_mul inf_of sub opp add].
      cbn [max compare]. f_equal. lra.
    + right. cbn [mul sub opp add]. rewrite max_Fin.
      eexists. split; [reflexivity |].
      unfold Rmax; destruct (Rle_dec _ _); lra.
  - intros rand hourOfDay dayOfWeek historicalTVL upgradeEvent.
    unfold predictLiquidityFlow, predictLiquidityFlow_try, try_catch.
    eexists. split; [reflexivity |].
    cbn [LiquidityPrediction.confidence].
    unfold generateTVLPredictions. cbv zeta.
    cbn [LiquidityPredictionService.p_confidence].
    apply floor_at_least. reflexivity.
Qed.



(** X15: the effect of an upgrade event on the TVL forecasts.  For a
    risk score between 0 and 100 the factor is a number between 0.68 and
    1.05; it never increases with the risk score; and only a parameter
    change can raise a forecast (exact arithmetic). *)
Theorem event_impact_bounded (type : UpgradeType) (riskScore : R) :
  0 <= riskScore <= 100 ->
  exists e,
    calculateEventImpact (UpgradeEvent.mk type (Fin riskScore)) = Fin e
    /\ 68 / 100 <= e <= 105 / 100
    /\ (1 < e -> type = parameter)
    /\ (forall riskScore' e',
           riskScore <= riskScore' ->
           calculateEventImpact (UpgradeEvent.mk type (Fin riskScore')) = Fin e' ->
           e' <= e).
Proof.
  intros Hr.
  assert (F : forall rs,
             calculateEventImpact (UpgradeEvent.mk type (Fin rs))
             = Fin (match type with
                    | governance => 95 / 100
                    | implementation => 85 / 100
                    | parameter => 105 / 100
                    end * (1 - rs / 100 * (2 / 10)))).
  { intros rs. unfold calculateEventImpact, typeMultipliers.
    cbn [UpgradeEvent.type UpgradeEvent.riskScore]. cbv zeta.
    destruct type; rewrite !lit_exact; cbn [Qnum Qden];
      rewrite truthy_Fin by lra;
      cbn [of_Z number num_sub num_mul num_div]; rewrite div_Fin by lra;
      cbn [mul sub opp add]; f_equal; lra. }
  eexists. split; [apply F |]. split; [| split].
  - destruct type; lra.
  - destruct type; intros H; try reflexivity; exfalso; lra.
  - intros rs' e' Hle He. rewrite F in He. injection He as <-.
    destruct type; lra.
Qed.

Lemma event_impact_bounded_witness :
  exists e,
    calculateEventImpact (UpgradeEvent.mk implementation (Fin 100)) = Fin e
    /\ 68 / 100 <= e <= 105 / 100
    /\ (1 < e -> implementation = parameter)
    /\ (forall riskScore' e',
           100 <= riskScore' ->
           calculateEventImpact (UpgradeEvent.mk implementation (Fin riskScore')) = Fin e' ->
           e' <= e).
Proof.
  apply (event_impact_bounded implementation 100). lra.
Defined.

End ExactTVLForecast.

Section Binary64ZeroTVL.
Import Binary64 Binary64Facts LiquidityPredictionService.

Lemma Prim2SF_zero : Prim2SF 0%float = S754_zero false.
Proof. reflexivity. Qed.

(** X16: on binary64, with a current TVL of 0 the relative change is a
    division by zero, and the direction follows the sign of the forecast:
    inflow for every positive forecast and outflow for every negative
    one, however small. *)
Theorem zero_tvl_direction (predicted : float) :
  (PrimFloat.ltb 0 predicted = true -> determineFlowDirection predicted 0%float = inflow)
  /\ (PrimFloat.ltb predicted 0 = true -> determineFlowDirection predicted 0%float = outflow).
Proof.
  assert (Hchange : forall s : bool,
             (exists m e, Prim2SF predicted = S754_finite s m e)
             \/ Prim2SF predicted = S754_infinity s ->
             ((predicted - 0) / 0)%float = (if s then neg_infinity else infinity)).
  { intros s H. apply Prim2SF_inj. rewrite FloatAxioms.div_spec, FloatAxioms.sub_spec, Prim2SF_zero.
    destruct H as [[m [e ->]] | ->]; destruct s; reflexivity. }
  unfold determineFlowDirection. cbv zeta.
  cbn [num_sub num_div num_ltb num_opp Binary64.number].
  split; intros H; rewrite FloatAxioms.ltb_spec, Prim2SF_zero in H.
  - rewrite (Hchange false); [reflexivity |].
    destruct (Prim2SF predicted) as [[|] | [|] | | [|] m e]; try discriminate H;
      [right; reflexivity | left; eauto].
  - rewrite (Hchange true); [reflexivity |].
    destruct (Prim2SF predicted) as [[|] | [|] | | [|] m e]; try discriminate H;
      [right; reflexivity | left; eauto].
Qed.

Lemma zero_tvl_direction_witness :
  determineFlowDirection 0x1p-1074%float 0%float = inflow.
Proof.
  apply (proj1 (zero_tvl_direction 0x1p-1074%float)). reflexivity.
Defined.

End Binary64ZeroTVL.

Section ExactFlatTVL.
Import Exact ExactFacts VolatilityModelingService LiquidityPredictionService.
Local Open Scope R_scope.







End ExactFlatTVL.

(* ================================================================= *)
(** * Cross-protocol flows *)

Section IndexedLoops.
Context {S : Type}.


End IndexedLoops.

Section FlowsShape.
Import LiquidityPredictionService.
Context {N : Type} {num : Number N}.







End FlowsShape.

Section ExactFlows.
Import Exact ExactFacts LiquidityPredictionService.
Local Open Scope R_scope.







End ExactFlows.

(* ================================================================= *)
(** * Tables keyed by a string: [predictYieldImpact], [predictEventVolatility] *)

Section ExactTables.
Import Exact ExactFacts VolatilityModelingService LiquidityPredictionService.
Local Open Scope R_scope.

Lemma lookup_or_inherited (table : list (string * xreal)) (key : string) (fallback : xreal) :
  In key Object_prototype ->
  existsb (fun entry => String.eqb (fst entry) key) table = false ->
  lookup_or table key fallback = XNaN.
Proof.
  intros Hin Hown. unfold lookup_or.
  assert (Hfind : find (fun entry => String.eqb (fst entry) key) table = None).
  { induction table as [| e table IH]; [reflexivity |].
    simpl in Hown |- *. apply orb_false_iff in Hown as [-> Hrest]. now apply IH. }
  rewrite Hfind.
  assert (Hex : existsb (String.eqb key) Object_prototype = true).
  { apply existsb_exists. exists key. split; [exact Hin | apply String.eqb_refl]. }
  rewrite Hex. unfold NaN. cbn [of_Z number num_div div].
  rewrite (Rcmp_eq 0 0 eq_refl). reflexivity.
Qed.







(** X19: a type that names a member of [Object.prototype] is found in
    the table's prototype, not rejected and not replaced by the fallback
    1.0: the yield impact, the new yield and the event volatility are then
    [NaN], whatever the other arguments (exact arithmetic). *)
Theorem inherited_type_gives_NaN (key : string) :
  In key Object_prototype ->
  (forall (rand : nat -> xreal) (currentYield liquidityChange : xreal),
      exists c,
        predictYieldImpact rand currentYield liquidityChange key
        = Resolved (YieldImpact.mk XNaN XNaN c))
  /\ (forall (baseVolatility riskScore : xreal)
             (historicalEvents : list (HistoricalEvent.t xreal)),
         predictEventVolatility baseVolatility key riskScore historicalEvents
         = Resolved XNaN).
Proof.
  intros Hin. split.
  - intros rand currentYield liquidityChange. unfold predictYieldImpact. cbv zeta.
    rewrite lookup_or_inherited;
      [| exact Hin
       | simpl in Hin; decompose [or] Hin; try contradiction; subst key; reflexivity].
    cbn [num_mul num_add number]. rewrite ?mul_XNaN_r, ?add_XNaN_r, ?mul_XNaN_r.
    eexists. reflexivity.
  - intros baseVolatility riskScore historicalEvents.
    unfold predictEventVolatility. cbv zeta.
    rewrite lookup_or_inherited;
      [| exact Hin
       | simpl in Hin; decompose [or] Hin; try contradiction; subst key; reflexivity].
    cbn [num_mul number]. rewrite mul_XNaN_r. reflexivity.
Qed.

Lemma inherited_type_gives_NaN_witness :
  predictEventVolatility (Fin (2 / 10)) "constructor" (Fin 50) [] = Resolved XNaN.
Proof.
  apply (proj2 (inherited_type_gives_NaN "constructor" ltac:(simpl; tauto))).
Defined.

End ExactTables.

(* ================================================================= *)
(** * Further properties of the decision engine *)

Section DecisionSafety.
Import Binary64 Binary64Facts ExecutionGuidanceService.

(** X1: the decision rule on binary64.  An overall risk above 70 never
    yields buy, one below 30 never yields sell; hold is only returned when
    neither hedge condition is met, and hedge only when one of them is. *)
Theorem action_respects_risk (risk : RiskAssessment.t float)
    (vol : VolatilityPrediction.t float) (liq : LiquidityPrediction.t float)
    (market : MarketData.t float) :
  let action := determineOptimalAction risk vol liq market in
  ((RiskAssessment.overall risk >? of_Z 70)%num = true -> action <> buy)
  /\ ((RiskAssessment.overall risk <? of_Z 30)%num = true -> action <> sell)
  /\ (action = hold ->
      (RiskAssessment.overall risk >? of_Z 60)%num = false
      /\ (VolatilityPrediction.predicted24h vol >? lit 0.5)%num = false)
  /\ (action = hedge ->
      (RiskAssessment.overall risk >? of_Z 60)%num = true
      \/ (VolatilityPrediction.predicted24h vol >? lit 0.5)%num = true).
Proof.
  cbv zeta. unfold determineOptimalAction. cbv zeta.
  destruct (RiskAssessment.overall risk <? of_Z 30)%num eqn:E1;
    destruct (RiskAssessment.overall risk >? of_Z 70)%num eqn:E2;
    try (exfalso; apply (thresholds_exclusive (RiskAssessment.overall risk)
                           (of_Z 30) (of_Z 70)); [reflexivity | assumption ..]);
    destruct (MarketData.change24h market >? of_Z 5)%num eqn:E3;
    destruct (MarketData.change24h market <? - of_Z 5)%num eqn:E4;
    destruct (VolatilityPrediction.predicted24h vol
              >? VolatilityPrediction.current vol * lit 1.5)%num;
    destruct (LiquidityPrediction.flowDirection liq);
    cbn [Z.add Z.sub Z.geb Z.leb Z.compare Z.opp Pos.compare Pos.compare_cont
         Z.pos_sub Pos.add Pos.succ Z.succ_double Z.pred_double Z.double Pos.pred_double];
    destruct (RiskAssessment.overall risk >? of_Z 60)%num eqn:E5;
    destruct (VolatilityPrediction.predicted24h vol >? lit 0.5)%num eqn:E6;
    cbn [orb];
    repeat split; intros; try discriminate; try congruence; auto.
Qed.

Lemma action_respects_risk_witness :
  (RiskAssessment.overall (RiskAssessment.mk 80 50 50 50 50 0)%float >? of_Z 70)%num = true
  /\ determineOptimalAction
       (RiskAssessment.mk 80 50 50 50 50 0)%float
       (VolatilityPrediction.mk (lit 0.2) (lit 0.2) (lit 0.2) (lit 0.2) (lit 0.9)
          (GarchParams.mk (lit 0.1) (lit 0.85) (lit 0.001)))
       (LiquidityPrediction.mk 1000 1011 1011 1011 inflow (lit 0.9))%float
       (MarketData.mk 6%float)
     <> buy.
Proof.
  split; [reflexivity |].
  apply (proj1 (action_respects_risk
                  (RiskAssessment.mk 80 50 50 50 50 0)%float
                  (VolatilityPrediction.mk (lit 0.2) (lit 0.2) (lit 0.2) (lit 0.2) (lit 0.9)
                     (GarchParams.mk (lit 0.1) (lit 0.85) (lit 0.001)))
                  (LiquidityPrediction.mk 1000 1011 1011 1011 inflow (lit 0.9))%float
                  (MarketData.mk 6%float))).
  reflexivity.
Defined.

End DecisionSafety.

Section Mitigation.
Import ExecutionGuidanceService.
Context {N : Type} {num : Number N}.

Lemma distinct_NoDup (l : list string) : distinct l = true -> NoDup l.
Proof.
  induction l as [| x l IH]; intros H; [constructor |].
  simpl in H. apply andb_true_iff in H. destruct H as [Hx Hl].
  constructor; [| now apply IH].
  intros Hin. apply negb_true_iff in Hx.
  assert (E : existsb (String.eqb x) l = true).
  { apply existsb_exists. exists x. split; [assumption | apply String.eqb_refl]. }
  congruence.
Qed.

Lemma In_existsb (x : string) (l : list string) :
  In x l <-> existsb (String.eqb x) l = true.
Proof.
  rewrite existsb_exists. split.
  - intros H. exists x. split; [assumption | apply String.eqb_refl].
  - intros [y [Hy E]]. apply String.eqb_eq in E. now subst.
Qed.

Lemma In_checked (x : string) (l : list string) (P : Prop) :
  (existsb (String.eqb x) l = true <-> P) -> (In x l <-> P).
Proof. intros H. rewrite In_existsb. exact H. Qed.

(** X2: the mitigation list, at every instance and on every input, starts
    with the two baseline strategies, has between 2 and 12 entries, never
    repeats a strategy, and contains the hedging strategies exactly when
    the action is hedge. *)
Theorem mitigation_list_shape (risk : RiskAssessment.t N)
    (vol : VolatilityPrediction.t N) (action : Action) :
  let strategies := generateRiskMitigationStrategies risk vol action in
  firstn 2 strategies
  = ["Implement stop-loss orders at 5-10% below entry";
     "Monitor market conditions every 4 hours"]%string
  /\ (2 <= List.length strategies <= 12)%nat
  /\ NoDup strategies
  /\ (In "Use correlated assets for hedging"%string strategies <-> action = hedge)
  /\ (In "Consider derivatives for downside protection"%string strategies
      <-> action = hedge).
Proof.
  unfold generateRiskMitigationStrategies.
  generalize (VolatilityPrediction.predicted24h vol >? lit 0.3)%num,
             (RiskAssessment.governance risk >? of_Z 60)%num,
             (RiskAssessment.liquidity risk >? of_Z 60)%num,
             (RiskAssessment.technical risk >? of_Z 60)%num.
  intros volatile governed illiquid technical.
  destruct volatile, governed, illiquid, technical, action; cbv zeta; cbn [app];
    (split; [reflexivity |]);
    (split; [cbn [List.length]; lia |]);
    (split; [apply distinct_NoDup; vm_compute; reflexivity |]);
    split; apply In_checked; vm_compute; split; intros; congruence.
Qed.

End Mitigation.

Section ExactGuidance.
Import Exact ExactFacts ExecutionGuidanceService.
Local Open Scope R_scope.

(** X3: the timing window, in exact arithmetic.  The entry is the clock
    reading plus 0, 30 or 60 minutes and the exit follows the entry by 1, 2
    or 7 days.  A buy exits after 7 days; 2 days only occur for a hedge;
    30 minutes only occur for a buy on inflow while volatility is expected
    to fall, and then replace the 60 minutes. *)
Theorem timing_window (clock : nat -> R) (vol : VolatilityPrediction.t xreal)
    (liq : LiquidityPrediction.t xreal) (action : Action) :
  exists d e,
    calculateOptimalTiming (fun k => Fin (clock k)) vol liq action
    = Timing.mk (Fin (clock 0%nat + d)) (Fin (clock 0%nat + d + e))
    /\ (d = 0 \/ d = 1800000 \/ d = 3600000)
    /\ (e = 86400000 \/ e = 172800000 \/ e = 604800000)
    /\ (action = buy -> e = 604800000)
    /\ (e = 172800000 -> action = hedge)
    /\ (d = 1800000 ->
        action = buy /\ LiquidityPrediction.flowDirection liq = inflow
        /\ (VolatilityPrediction.predicted1h vol <? VolatilityPrediction.current vol)%num = true)
    /\ (action = buy -> LiquidityPrediction.flowDirection liq = inflow -> d <= 1800000).
Proof.
  unfold calculateOptimalTiming. cbv zeta.
  destruct (VolatilityPrediction.predicted1h vol <? VolatilityPrediction.current vol)%num;
    destruct (LiquidityPrediction.flowDirection liq); destruct action;
    try destruct (VolatilityPrediction.predicted24h vol >? lit 0.3)%num;
    cbn [of_Z number num_add Math_min add]; rewrite ?min_Fin;
    do 2 eexists; (split; [reflexivity |]);
    try (rewrite Rmin_right by lra); try (rewrite Rmin_left by lra);
    repeat split; intros; try discriminate; try lra; auto; try congruence.
Qed.
End ExactGuidance.

Section ExactConfidence.
Import Exact ExactFacts ExecutionGuidanceService.
Local Open Scope R_scope.







End ExactConfidence.

(* ================================================================= *)
(** * Portfolio metrics *)

Section RealSums.
Local Open Scope R_scope.

Lemma sum_from (f : R -> R) (l : list R) (a : R) :
  fold_left (fun s x => s + f x) l a = a + fold_left (fun s x => s + f x) l 0.
Proof.
  revert a. induction l as [| x l IH]; intros a; [simpl; lra |].
  simpl. rewrite (IH (a + f x)), (IH (0 + f x)). lra.
Qed.

Lemma sum_cons (f : R -> R) (x : R) (l : list R) :
  fold_left (fun s y => s + f y) (x :: l) 0 = f x + fold_left (fun s y => s + f y) l 0.
Proof. simpl. rewrite sum_from. lra. Qed.








End RealSums.

Section ExactPortfolio.
Import Exact ExactFacts ExecutionGuidanceService.
Local Open Scope R_scope.

Lemma totalValue_Fin (positions : list (Position.t xreal)) (vs : list R) (a : R) :
  map Position.value positions = map Fin vs ->
  fold_left (fun sum pos => (sum + Position.value pos)%num) positions (Fin a)
  = Fin (fold_left (fun s x => s + x) vs a).
Proof.
  revert vs a. induction positions as [| p positions IH]; intros [| v vs] a H;
    try discriminate; [reflexivity |].
  simpl in H. injection H as Hp Hrest. simpl. rewrite Hp. apply IH. exact Hrest.
Qed.




End ExactPortfolio.

Section PortfolioEdges.
Import Exact ExactFacts ExecutionGuidanceService.
Local Open Scope R_scope.

Lemma single_weight_squared (x : xreal) :
  (of_Z 1 - (of_Z 0 + x / (of_Z 0 + x) * (x / (of_Z 0 + x))))%num = XNaN
  \/ (of_Z 1 - (of_Z 0 + x / (of_Z 0 + x) * (x / (of_Z 0 + x))))%num = Fin 0.
Proof.
  destruct x as [v | | |]; cbn [of_Z number num_add num_sub num_mul num_div add];
    try (left; reflexivity).
  replace (0 + v) with v by lra.
  destruct (Req_dec v 0) as [-> | Hv].
  - left. cbn [div]. rewrite (Rcmp_eq 0 0 eq_refl). reflexivity.
  - right. rewrite div_Fin by exact Hv. cbn [mul add sub opp]. f_equal. field. exact Hv.
Qed.

(** X21: the degenerate portfolios.  With a single position the
    diversification ratio is [NaN], whatever the value of the position;
    with no position the total value is 0 and the ratio is 0 (exact
    arithmetic; on binary64 the ratio of the empty portfolio is the
    negative zero). *)
Theorem degenerate_portfolios :
  (forall (rand : nat -> xreal) (position : Position.t xreal)
          (riskAssessment : RiskAssessment.t xreal),
      exists metrics,
        calculatePortfolioMetrics rand [position] riskAssessment = Resolved metrics
        /\ PortfolioMetrics.diversificationRatio metrics = XNaN)
  /\ (forall (rand : nat -> xreal) (riskAssessment : RiskAssessment.t xreal),
         exists metrics,
           calculatePortfolioMetrics rand [] riskAssessment = Resolved metrics
           /\ PortfolioMetrics.totalValue metrics = Fin 0
           /\ PortfolioMetrics.diversificationRatio metrics = Fin 0)
  /\ (forall (rand : nat -> float) (riskAssessment : RiskAssessment.t float),
         exists metrics,
           calculatePortfolioMetrics rand [] riskAssessment = Resolved metrics
           /\ PortfolioMetrics.totalValue metrics = 0%float
           /\ PortfolioMetrics.diversificationRatio metrics = (-0)%float).
Proof.
  split; [| split].
  - intros rand position riskAssessment. unfold calculatePortfolioMetrics. cbv zeta.
    eexists. split; [reflexivity |]. cbn [PortfolioMetrics.diversificationRatio].
    cbn [map fold_left len List.length Z.of_nat Pos.of_succ_nat].
    destruct (single_weight_squared (Position.value position)) as [-> | ->].
    + reflexivity.
    + cbn [of_Z number num_sub num_div]. rewrite div_Fin by lra.
      cbn [sub opp add div]. rewrite !Rcmp_eq by lra. reflexivity.
  - intros rand riskAssessment. unfold calculatePortfolioMetrics. cbv zeta.
    eexists. split; [reflexivity |]. split; [reflexivity |].
    cbn [PortfolioMetrics.diversificationRatio map fold_left len List.length Z.of_nat
         of_Z number num_sub num_div div sub opp add].
    rewrite (Rcmp_eq 0 0 eq_refl), (Rcmp_gt 1 0) by lra. reflexivity.
  - intros rand riskAssessment. unfold calculatePortfolioMetrics. cbv zeta.
    eexists. split; [reflexivity |]. split; reflexivity.
Qed.

(** X22: the mock metrics.  For draws in [[0, 1)] and positions whose
    values are non-negative numbers, the risk-adjusted return is in
    [[-0.05, 0.15)], the Sharpe ratio in [[0, 2)], the maximum drawdown in
    [[0, 0.3)], and the value at risk between 5% and 15% of the total
    value (exact arithmetic). *)
Theorem mock_metrics_ranges (u : nat -> R) (positions : list (Position.t xreal))
    (values : list R) (riskAssessment : RiskAssessment.t xreal) :
  (forall k, 0 <= u k < 1) ->
  map Position.value positions = map Fin values ->
  Forall (fun v => 0 <= v) values ->
  exists T r s m v d,
    calculatePortfolioMetrics (fun k => Fin (u k)) positions riskAssessment
    = Resolved (PortfolioMetrics.mk (Fin T) (Fin r) (Fin s) (Fin m) (Fin v) d)
    /\ 0 <= T
    /\ - (5 / 100) <= r < 15 / 100
    /\ 0 <= s < 2
    /\ 0 <= m < 3 / 10
    /\ 5 / 100 * T <= v <= 15 / 100 * T.
Proof.
  intros Hu Hvalues Hpos. unfold calculatePortfolioMetrics. cbv zeta.
  change (@of_Z xreal number 0) with (Fin 0).
  rewrite (totalValue_Fin positions values 0 Hvalues).
  assert (HT : 0 <= fold_left (fun s x => s + x) values 0).
  { clear Hvalues. induction Hpos as [| x l Hx _ IH]; [simpl; lra |].
    rewrite (sum_cons (fun x => x)). lra. }
  rewrite !lit_exact.
  cbn [Qnum Qden of_Z number num_add num_sub num_mul mul add sub opp].
  do 6 eexists. split; [reflexivity |]. split; [exact HT |].
  assert (H0 := Hu 0%nat). assert (H1 := Hu 1%nat).
  assert (H2 := Hu 2%nat). assert (H3 := Hu 3%nat).
  repeat split; nra.
Qed.

Lemma mock_metrics_ranges_witness :
  exists T r s m v d,
    calculatePortfolioMetrics (fun k => Fin (1 / 2))
      [Position.mk "ETH"%string (Fin 2) (Fin 6000)]
      (RiskAssessment.mk (Fin 50) (Fin 50) (Fin 50) (Fin 50) (Fin 50) (Fin 0))
    = Resolved (PortfolioMetrics.mk (Fin T) (Fin r) (Fin s) (Fin m) (Fin v) d)
    /\ 0 <= T
    /\ - (5 / 100) <= r < 15 / 100
    /\ 0 <= s < 2
    /\ 0 <= m < 3 / 10
    /\ 5 / 100 * T <= v <= 15 / 100 * T.
Proof.
  apply (mock_metrics_ranges (fun _ => 1 / 2)
           [Position.mk "ETH"%string (Fin 2) (Fin 6000)] [6000]
           (RiskAssessment.mk (Fin 50) (Fin 50) (Fin 50) (Fin 50) (Fin 50) (Fin 0))).
  - intros _. lra.
  - reflexivity.
  - repeat constructor; lra.
Defined.

End PortfolioEdges.

(* ================================================================= *)
(** * The network selection *)

Section NetworkSelection.
Import App.

Lemma includes_In (networkId : string) (prev : list string) :
  existsb (String.eqb networkId) prev = true <-> In networkId prev.
Proof.
  rewrite existsb_exists. split.
  - intros [x [Hx E]]. apply String.eqb_eq in E. now subst.
  - intros H. exists networkId. split; [exact H | apply String.eqb_refl].
Qed.

Lemma filter_other_In (networkId x : string) (prev : list string) :
  In x (filter (fun id => negb (String.eqb id networkId)) prev)
  <-> In x prev /\ x <> networkId.
Proof.
  rewrite filter_In. rewrite negb_true_iff. 
  split; intros [H1 H2]; (split; [exact H1 |]).
  - now apply String.eqb_neq.
  - now apply String.eqb_neq.
Qed.

Lemma filter_absent (networkId : string) (prev : list string) :
  ~ In networkId prev ->
  filter (fun id => negb (String.eqb id networkId)) prev = prev.
Proof.
  induction prev as [| x prev IH]; intros H; [reflexivity |].
  simpl. destruct (String.eqb_spec x networkId) as [-> | _].
  - exfalso. apply H. now left.
  - simpl. f_equal. apply IH. intros Hin. apply H. now right.
Qed.

(** X26: a click on a network toggles it.  After the click the network
    is selected exactly when it was not before, and every other network
    is selected exactly when it was; a selection without repetitions
    stays so; a second click on a network that was not selected restores
    the selection, and on one that was selected puts it back at the end,
    once. *)
Theorem network_selection_toggles (prev : list string) (networkId : string) :
  (In networkId (handleNetworkSelect prev networkId) <-> ~ In networkId prev)
  /\ (forall other, other <> networkId ->
        (In other (handleNetworkSelect prev networkId) <-> In other prev))
  /\ (NoDup prev -> NoDup (handleNetworkSelect prev networkId))
  /\ (~ In networkId prev ->
      handleNetworkSelect (handleNetworkSelect prev networkId) networkId = prev)
  /\ (In networkId prev ->
      handleNetworkSelect (handleNetworkSelect prev networkId) networkId
      = filter (fun id => negb (String.eqb id networkId)) prev ++ [networkId]).
Proof.
  unfold handleNetworkSelect.
  destruct (existsb (String.eqb networkId) prev) eqn:E.
  - assert (Hin : In networkId prev) by (now apply includes_In).
    assert (Hout : ~ In networkId (filter (fun id => negb (String.eqb id networkId)) prev)).
    { rewrite filter_other_In. intros [_ H]. now apply H. }
    assert (Eout : existsb (String.eqb networkId)
                     (filter (fun id => negb (String.eqb id networkId)) prev) = false).
    { apply not_true_is_false. intros E'. apply includes_In in E'. contradiction. }
    split; [| split; [| split; [| split]]].
    + split; [intros H; contradiction | intros H; contradiction].
    + intros other Hother. rewrite filter_other_In. tauto.
    + intros Hnd. now apply NoDup_filter.
    + intros H. contradiction.
    + intros _. now rewrite Eout.
  - assert (Hnot : ~ In networkId prev).
    { intros H. apply includes_In in H. congruence. }
    assert (Ein : existsb (String.eqb networkId) (prev ++ [networkId]) = true).
    { apply includes_In, in_or_app. right. now left. }
    split; [| split; [| split; [| split]]].
    + split; [intros _; exact Hnot | intros _; apply in_or_app; right; now left].
    + intros other Hother. rewrite in_app_iff. simpl. intuition congruence.
    + intros Hnd. apply NoDup_app; [exact Hnd | repeat constructor; intros [] |].
      intros x Hx [<- | []]. contradiction.
    + intros _. rewrite Ein, filter_app. simpl.
      rewrite String.eqb_refl. simpl. rewrite app_nil_r. now apply filter_absent.
    + intros H. contradiction.
Qed.

Lemma network_selection_toggles_witness :
  handleNetworkSelect
    (handleNetworkSelect ["ethereum"; "polygon"]%string "arbitrum"%string) "arbitrum"%string
  = ["ethereum"; "polygon"]%string.
Proof.
  apply (proj1 (proj2 (proj2 (proj2
           (network_selection_toggles ["ethereum"; "polygon"]%string "arbitrum"%string))))).
  simpl. intros [H | [H | []]]; discriminate.
Defined.

End NetworkSelection.
